(** * Design store service: a shallow embedding of [app.py]

    The Flask application of [app.py] stores user-submitted SVG designs
    under short random codes and renders them back as an HTML page.

    Conventions of the embedding.
    - A Python [str] is a list of characters.  A character is a Unicode
      code point in the range U+0000..U+00FF, carried by [ascii]; the
      character classes [isspace], [isalnum] and the case mapping [lower]
      are the ones CPython uses on that range.  Text with characters
      beyond U+00FF is outside the embedding.
    - A request carries the size of its body: [request.get_json] raises
      [RequestEntityTooLarge] on a JSON body over [MAX_CONTENT_LENGTH].
    - [bytes] is [list byte].
    - A handler is a function of the configuration, the request and the
      world (entropy source, clock, table of designs); it returns either a
      response or the exception that escapes it, and the new world. *)

From Stdlib Require Import List String Ascii Strings.Byte NArith ZArith Bool Lia.
From Stdlib Require Import Floats.SpecFloat.
Import ListNotations.

Set Warnings "-register-all".
Local Open Scope list_scope.

(** ** Python values and the [str] methods the application calls *)

Module Py.

Definition str := list ascii.
Definition bytes := list byte.

(** A string literal of the source. *)
Definition lit (s : string) : str := list_ascii_of_string s.

(** [len], counted without building a unary number. *)
Fixpoint len_from {A} (acc : N) (l : list A) : N :=
  match l with
  | [] => acc
  | _ :: l' => len_from (N.succ acc) l'
  end.

Definition len {A} (l : list A) : N := len_from 0%N l.

Definition ord (c : ascii) : N := N_of_ascii c.

Definition between (lo hi n : N) : bool := ((lo <=? n) && (n <=? hi))%N.

Fixpoint str_eqb (a b : str) : bool :=
  match a, b with
  | [], [] => true
  | x :: a', y :: b' => Ascii.eqb x y && str_eqb a' b'
  | _, _ => false
  end.

(** [ch.isspace()]: the white space of CPython's Unicode database below
    U+0100 (TAB..CR, FS..US, SPACE, NEL, NBSP). *)
Definition isspace (c : ascii) : bool :=
  let n := ord c in
  between 9 13 n || between 28 32 n || (n =? 133)%N || (n =? 160)%N.

(** [ch.isalnum()] below U+0100: ASCII letters and digits, the Latin-1
    letters (but not the multiplication and division signs), the
    ordinal indicators, the micro sign, the superscript digits and the
    vulgar fractions. *)
Definition isalnum (c : ascii) : bool :=
  let n := ord c in
  between 48 57 n || between 65 90 n || between 97 122 n
  || (n =? 170)%N || (n =? 181)%N || (n =? 186)%N
  || (n =? 178)%N || (n =? 179)%N || (n =? 185)%N
  || between 188 190 n
  || between 192 214 n || between 216 246 n || between 248 255 n.

(** The lower-case mapping of one character below U+0100. *)
Definition lower_char (c : ascii) : ascii :=
  let n := ord c in
  if between 65 90 n || between 192 214 n || between 216 222 n
  then ascii_of_N (n + 32)
  else c.

(** [s.lower()] on text of code points below U+0100, where [str.lower]
    maps character by character and stays in the range.  Beyond the
    range it does not (U+0130 becomes the two characters U+0069 U+0307);
    such text is outside this embedding. *)
Definition lower (s : str) : str := map lower_char s.

Fixpoint dropwhile (p : ascii -> bool) (s : str) : str :=
  match s with
  | [] => []
  | c :: s' => if p c then dropwhile p s' else s
  end.

Definition lstrip_by (p : ascii -> bool) (s : str) : str := dropwhile p s.
Definition rstrip_by (p : ascii -> bool) (s : str) : str :=
  rev (dropwhile p (rev s)).
Definition strip_by (p : ascii -> bool) (s : str) : str :=
  rstrip_by p (lstrip_by p s).

(** [s.strip()] *)
Definition strip (s : str) : str := strip_by isspace s.

(** [s.strip(chars)] and [s.rstrip(chars)] *)
Definition mem_char (chars : str) (c : ascii) : bool :=
  existsb (Ascii.eqb c) chars.
Definition strip_chars (chars s : str) : str := strip_by (mem_char chars) s.
Definition rstrip_chars (chars s : str) : str := rstrip_by (mem_char chars) s.

(** [s.replace(old, new)] for a one-character [old]. *)
Fixpoint replace (old : ascii) (new : str) (s : str) : str :=
  match s with
  | [] => []
  | c :: s' =>
      if Ascii.eqb c old then new ++ replace old new s'
      else c :: replace old new s'
  end.

(** [s[:n]] *)
Definition slice_to (n : nat) (s : str) : str := firstn n s.

(** The values [json.loads] builds. *)
Inductive value :=
| PNone
| PBool (b : bool)
| PInt (z : Z)
| PFloat (f : spec_float)
| PStr (s : str)
| PList (l : list value)
| PDict (d : list (str * value)).

(** [bool(v)] *)
Definition truthy (v : value) : bool :=
  match v with
  | PNone => false
  | PBool b => b
  | PInt z => negb (z =? 0)%Z
  | PFloat (S754_zero _) => false
  | PFloat _ => true
  | PStr s => negb (str_eqb s [])
  | PList l => match l with [] => false | _ => true end
  | PDict d => match d with [] => false | _ => true end
  end.

(** [a or b] *)
Definition or_else (a b : value) : value := if truthy a then a else b.

(** The exceptions that can escape a handler.  [RequestEntityTooLarge]
    is the HTTP exception the framework turns into its own 413 page. *)
Inductive exn :=
| AttributeError
| TypeError
| IntegrityError
| StatementError
| RequestEntityTooLarge.

Inductive outcome (A : Type) :=
| Ok (a : A)
| Raise (e : exn).
Arguments Ok {A} a.
Arguments Raise {A} e.

Fixpoint assoc (k : str) (d : list (str * value)) : option value :=
  match d with
  | [] => None
  | (k', v) :: d' => if str_eqb k k' then Some v else assoc k d'
  end.

(** [data.get(key)]: only a dict has the method. *)
Definition get (data : value) (key : str) : outcome value :=
  match data with
  | PDict d => Ok (match assoc key d with Some v => v | None => PNone end)
  | _ => Raise AttributeError
  end.

(** [v.strip()]: only a str has the method. *)
Definition strip_method (v : value) : outcome str :=
  match v with
  | PStr s => Ok (strip s)
  | _ => Raise AttributeError
  end.

(** [len(v)]: str, list and dict are sized; the other JSON values are not. *)
Definition len_builtin (v : value) : outcome N :=
  match v with
  | PStr s => Ok (len s)
  | PList l => Ok (len l)
  | PDict d => Ok (len d)
  | _ => Raise TypeError
  end.

End Py.

(** ** The standard library's [base64] module (RFC 4648) *)

Module Base64.
Import Py.

Definition alphabet : str :=
  lit "ABCDEFGHIJKLMNOPQRSTUVWXYZabcdefghijklmnopqrstuvwxyz0123456789+/".

Definition pad : ascii := "="%char.

(** The character of a six-bit group. *)
Definition char_of_sextet (i : N) : ascii :=
  nth (N.to_nat i) alphabet pad.

(** The four six-bit groups of three bytes, most significant first. *)
Definition sextet0 (b0 : N) : N := N.shiftr b0 2.
Definition sextet1 (b0 b1 : N) : N :=
  N.lor (N.shiftl (N.land b0 3) 4) (N.shiftr b1 4).
Definition sextet2 (b1 b2 : N) : N :=
  N.lor (N.shiftl (N.land b1 15) 2) (N.shiftr b2 6).
Definition sextet3 (b2 : N) : N := N.land b2 63.

(** [base64.b64encode(data)], as text. *)
Fixpoint b64encode (data : bytes) : str :=
  match data with
  | [] => []
  | [b0] =>
      let n0 := Byte.to_N b0 in
      [char_of_sextet (sextet0 n0); char_of_sextet (sextet1 n0 0); pad; pad]
  | [b0; b1] =>
      let n0 := Byte.to_N b0 in
      let n1 := Byte.to_N b1 in
      [char_of_sextet (sextet0 n0); char_of_sextet (sextet1 n0 n1);
       char_of_sextet (sextet2 n1 0); pad]
  | b0 :: b1 :: b2 :: rest =>
      let n0 := Byte.to_N b0 in
      let n1 := Byte.to_N b1 in
      let n2 := Byte.to_N b2 in
      char_of_sextet (sextet0 n0) :: char_of_sextet (sextet1 n0 n1)
      :: char_of_sextet (sextet2 n1 n2) :: char_of_sextet (sextet3 n2)
      :: b64encode rest
  end.

(** [bytes.translate] with the table of [urlsafe_b64encode]: [+] becomes
    [-] and [/] becomes [_]. *)
Definition urlsafe_char (c : ascii) : ascii :=
  if Ascii.eqb c "+" then "-"%char
  else if Ascii.eqb c "/" then "_"%char
  else c.

(** [base64.urlsafe_b64encode(data)] *)
Definition urlsafe_b64encode (data : bytes) : str :=
  map urlsafe_char (b64encode data).

(** The six-bit group of a character of the alphabet. *)
Definition sextet_of_char (c : ascii) : option N :=
  let n := ord c in
  if between 65 90 n then Some (n - 65)%N
  else if between 97 122 n then Some (n - 71)%N
  else if between 48 57 n then Some (n + 4)%N
  else if (n =? 43)%N then Some 62%N
  else if (n =? 47)%N then Some 63%N
  else None.

Definition byte_of_N (n : N) : byte :=
  match Byte.of_N (N.land n 255) with
  | Some b => b
  | None => x00
  end.

Definition octet0 (s0 s1 : N) : byte :=
  byte_of_N (N.lor (N.shiftl s0 2) (N.shiftr s1 4)).
Definition octet1 (s1 s2 : N) : byte :=
  byte_of_N (N.lor (N.shiftl (N.land s1 15) 4) (N.shiftr s2 2)).
Definition octet2 (s2 s3 : N) : byte :=
  byte_of_N (N.lor (N.shiftl (N.land s2 3) 6) s3).

(** A strict decoder for padded base64 text: what a reader of the data
    URI recovers.  [None] when the text is not well-formed. *)
Fixpoint b64decode (text : str) : option bytes :=
  match text with
  | [] => Some []
  | c0 :: c1 :: c2 :: c3 :: rest =>
      match sextet_of_char c0, sextet_of_char c1 with
      | Some s0, Some s1 =>
          if Ascii.eqb c3 pad then
            match rest with
            | [] =>
                if Ascii.eqb c2 pad then Some [octet0 s0 s1]
                else
                  match sextet_of_char c2 with
                  | Some s2 => Some [octet0 s0 s1; octet1 s1 s2]
                  | None => None
                  end
            | _ :: _ => None
            end
          else
            match sextet_of_char c2, sextet_of_char c3, b64decode rest with
            | Some s2, Some s3, Some tail =>
                Some (octet0 s0 s1 :: octet1 s1 s2 :: octet2 s2 s3 :: tail)
            | _, _, _ => None
            end
      | _, _ => None
      end
  | _ => None
  end.

End Base64.

(** ** The UTF-8 codec on the characters of the embedding *)

Module Utf8.
Import Py.

(** [ch.encode('utf-8')]: one byte below U+0080, two bytes from U+0080 to
    U+00FF. *)
Definition encode_char (c : ascii) : bytes :=
  let n := ord c in
  if (n <? 128)%N then [Base64.byte_of_N n]
  else [Base64.byte_of_N (N.lor 192 (N.shiftr n 6));
        Base64.byte_of_N (N.lor 128 (N.land n 63))].

(** [s.encode('utf-8')] *)
Definition encode (s : str) : bytes := flat_map encode_char s.

(** [data.decode('utf-8')] for the one- and two-byte forms; [None] on
    anything else. *)
Fixpoint decode (data : bytes) : option str :=
  match data with
  | [] => Some []
  | b :: rest =>
      let n := Byte.to_N b in
      if (n <? 128)%N then option_map (cons (ascii_of_N n)) (decode rest)
      else if between 194 195 n then
        match rest with
        | b' :: rest' =>
            let n' := Byte.to_N b' in
            if between 128 191 n' then
              option_map
                (cons (ascii_of_N (N.lor (N.shiftl (N.land n 31) 6)
                                         (N.land n' 63))))
                (decode rest')
            else None
        | [] => None
        end
      else None
  end.

End Utf8.

(** ** The standard library's [secrets] module *)

Module Secrets.
Import Py.

(** The operating system's entropy: an unbounded supply of bytes and the
    position of the next unread one. *)
Record source := { supply : nat -> byte; cursor : nat }.

(** [secrets.token_bytes(nbytes)] *)
Definition token_bytes (nbytes : nat) (r : source) : bytes * source :=
  (map (supply r) (seq (cursor r) nbytes),
   {| supply := supply r; cursor := cursor r + nbytes |}).

(** The text [token_urlsafe] makes of the bytes it drew. *)
Definition urlsafe_text (tok : bytes) : str :=
  rstrip_chars (lit "=") (Base64.urlsafe_b64encode tok).

(** [secrets.token_urlsafe(nbytes)] *)
Definition token_urlsafe (nbytes : nat) (r : source) : str * source :=
  let (tok, r') := token_bytes nbytes r in
  (urlsafe_text tok, r').

End Secrets.

(** ** The application *)

Module App.
Import Py.

(** [app.config] *)
Record Config := {
  ALLOWED_ORIGIN : str;
  ADMIN_USER : str;
  ADMIN_PASS : str
}.

(** A naive UTC [datetime]. *)
Record datetime := {
  year : N; month : N; day : N;
  hour : N; minute : N; second : N
}.

Definition digit (n : N) : ascii := ascii_of_N (48 + n mod 10).
Definition pad2 (n : N) : str := [digit (n / 10); digit n].
Definition pad4 (n : N) : str :=
  [digit (n / 1000); digit (n / 100); digit (n / 10); digit n].

(** [t.strftime('%Y-%m-%d %H:%M:%S')], for the four-digit years that
    [datetime.utcnow] returns. *)
Definition strftime (t : datetime) : str :=
  pad4 (year t) ++ lit "-" ++ pad2 (month t) ++ lit "-" ++ pad2 (day t)
  ++ lit " " ++ pad2 (hour t) ++ lit ":" ++ pad2 (minute t) ++ lit ":"
  ++ pad2 (second t).

(** The text kept in [state_json].  [str(state)] of a value that is not a
    string is kept as the value it is the text of: no handler reads it. *)
Inductive state_text :=
| Verbatim (s : str)
| StrOf (v : value).

(** A row of the table [designs]. *)
Record Design := {
  id : N;
  code : str;
  product_id : str;
  svg : str;
  state_json : option state_text;
  created_at : datetime
}.

(** A [Design] object that has not been flushed: its attributes hold
    whatever the handler assigned. *)
Record NewDesign := {
  new_code : str;
  new_product_id : str;
  new_svg : value;
  new_state_json : option state_text
}.

(** What a handler can observe and change outside itself. *)
Record World := {
  rng : Secrets.source;
  utcnow : datetime;
  designs : list Design
}.

Inductive Method := GET | POST | OPTIONS.

(** [app.config['MAX_CONTENT_LENGTH']]: two mebibytes. *)
Definition MAX_CONTENT_LENGTH : N := 2 * 1024 * 1024.

(** The parts of [flask.request] the handlers read.  [is_json] tells
    whether the content type announces JSON; [content_length] is the
    size of the body in bytes (0 when there is none); [json] is what the
    body parses to, [PNone] when parsing fails; [authorization] is the
    decoded Basic credentials. *)
Record Request := {
  method : Method;
  origin : option str;
  authorization : option (str * str);
  is_json : bool;
  content_length : N;
  json : value
}.

(** A call that returned [v]. *)
Definition returned (v : value) : outcome value := Ok v.
Coercion returned : value >-> outcome.

(** [request.get_json(silent=True)]: under a content type that is not
    JSON the call returns [None] and the body is not read; otherwise
    reading a body longer than [MAX_CONTENT_LENGTH] raises
    [RequestEntityTooLarge], which [silent] does not catch, and a body
    within the cap gives what it parses to, [None] when that fails. *)
Definition get_json (req : Request) : outcome value :=
  if negb (is_json req) then returned PNone
  else if (MAX_CONTENT_LENGTH <? content_length req)%N
  then Raise RequestEntityTooLarge
  else returned (json req).

Inductive Body :=
| Text (s : str)
| Json (obj : list (str * str)).

Record Response := {
  status : N;
  mimetype : str;
  headers : list (str * str);
  body : Body
}.

(** [resp.headers[name] = v] *)
Fixpoint set_item (name v : str) (hs : list (str * str)) : list (str * str) :=
  match hs with
  | [] => [(name, v)]
  | (k, v') :: hs' =>
      if str_eqb k name then (k, v) :: hs' else (k, v') :: set_item name v hs'
  end.

Definition set_header (name v : str) (resp : Response) : Response :=
  {| status := status resp; mimetype := mimetype resp;
     headers := set_item name v (headers resp); body := body resp |}.

Fixpoint header (name : str) (hs : list (str * str)) : option str :=
  match hs with
  | [] => None
  | (k, v) :: hs' => if str_eqb k name then Some v else header name hs'
  end.

(** [Response(text, status)] and [make_response(text, status)] *)
Definition make_response (text : str) (st : N) : Response :=
  {| status := st; mimetype := lit "text/html"; headers := []; body := Text text |}.

(** [jsonify(obj)] *)
Definition jsonify (obj : list (str * str)) : Response :=
  {| status := 200; mimetype := lit "application/json"; headers := [];
     body := Json obj |}.

(** [return resp, st] *)
Definition with_status (st : N) (resp : Response) : Response :=
  {| status := st; mimetype := mimetype resp; headers := headers resp;
     body := body resp |}.

(** Handlers: state passing over the world, with exceptions. *)
Definition M (A : Type) := World -> outcome A * World.

Definition ret {A} (a : A) : M A := fun w => (Ok a, w).

Definition bind {A B} (m : M A) (k : A -> M B) : M B :=
  fun w =>
    match m w with
    | (Ok a, w') => k a w'
    | (Raise e, w') => (Raise e, w')
    end.

Definition lift {A} (o : outcome A) : M A := fun w => (o, w).

Notation "x <- m ;; k" := (bind m (fun x => k))
  (at level 61, m at next level, right associativity).
Notation "m ;;; k" := (bind m (fun _ => k))
  (at level 61, right associativity).

Definition origin_is (o : option str) (allowed : str) : bool :=
  match o with
  | Some s => str_eqb s allowed
  | None => false
  end.

Definition nonempty (s : str) : bool := truthy (PStr s).

(** [cors_ok] *)
Definition cors_ok (cfg : Config) (req : Request) (resp : Response) : Response :=
  let o := origin req in
  let allowed := ALLOWED_ORIGIN cfg in
  if str_eqb allowed (lit "*")
     || (match o with Some s => nonempty s | None => false end
         && origin_is o allowed)
  then
    set_header (lit "Access-Control-Allow-Credentials") (lit "true")
      (set_header (lit "Vary") (lit "Origin")
         (set_header (lit "Access-Control-Allow-Origin")
            (match o with
             | Some s => if nonempty s then s else lit "*"
             | None => lit "*"
             end)
            resp))
  else resp.

(** [require_basic_auth] *)
Definition require_basic_auth (cfg : Config) (req : Request) : bool :=
  nonempty (ADMIN_USER cfg)
  && nonempty (ADMIN_PASS cfg)
  && match authorization req with
     | None => false
     | Some (username, password) =>
         str_eqb username (ADMIN_USER cfg) && str_eqb password (ADMIN_PASS cfg)
     end.

(** [generate_code] *)
Definition code_of_token (t : str) : str :=
  slice_to 10 (replace "_" [] (replace "-" [] t)).

Definition generate_code : M str :=
  fun w =>
    let (t, r) := Secrets.token_urlsafe 7 (rng w) in
    (Ok (code_of_token t),
     {| rng := r; utcnow := utcnow w; designs := designs w |}).

(** [session.query(Design).filter_by(code=c).first()] *)
Definition query_first (c : str) : M (option Design) :=
  fun w => (Ok (find (fun d => str_eqb (code d) c) (designs w)), w).

(** The loop [for _ in range(n)] of [save_design]: leave with the
    candidate when no row has it, otherwise draw another one. *)
Fixpoint retry_on_collision (n : nat) (c : str) : M str :=
  match n with
  | O => ret c
  | S n' =>
      found <- query_first c ;;
      match found with
      | None => ret c
      | Some _ => c' <- generate_code ;; retry_on_collision n' c'
      end
  end.

(** [session.add(design); session.commit()].  The INSERT binds the
    attributes as parameters: the driver (sqlite3, the default
    [DATABASE_URL]) refuses a list or a dict for the [Text] column, and
    the unique index on [code] (declared [unique=True]) refuses a code
    that a row already has.  Nothing is written when it fails.  The new
    row gets the next [id] and [datetime.utcnow()] as [created_at]. *)
Definition add_and_commit (d : NewDesign) : M unit :=
  fun w =>
    match new_svg d with
    | PStr text =>
        if existsb (fun r => str_eqb (code r) (new_code d)) (designs w)
        then (Raise IntegrityError, w)
        else
          (Ok tt,
           {| rng := rng w; utcnow := utcnow w;
              designs :=
                designs w ++
                [{| id := len (designs w) + 1;
                    code := new_code d;
                    product_id := new_product_id d;
                    svg := text;
                    state_json := new_state_json d;
                    created_at := utcnow w |}] |})
    | _ => (Raise StatementError, w)
    end.

(** The expression assigned to [state_json]. *)
Definition state_json_of (state : value) : option state_text :=
  match state with
  | PStr s => Some (Verbatim s)
  | PNone => None
  | v => Some (StrOf v)
  end.

Definition SVG_LIMIT : N := 1500000.

(** The [try] block of [save_design]: draw a code, retry while a row has
    it, insert the row, answer with the code. *)
Definition store_design (cfg : Config) (req : Request)
    (product_id : str) (svg state : value) : M Response :=
  c0 <- generate_code ;;
  c <- retry_on_collision 3 c0 ;;
  add_and_commit
    {| new_code := c; new_product_id := product_id; new_svg := svg;
       new_state_json := state_json_of state |} ;;;
  ret (cors_ok cfg req (jsonify [(lit "code", c)])).

Definition origin_allowed (cfg : Config) (req : Request) : bool :=
  str_eqb (ALLOWED_ORIGIN cfg) (lit "*")
  || origin_is (origin req) (ALLOWED_ORIGIN cfg).

(** [save_design], the handler of [/api/designs]. *)
Definition save_design (cfg : Config) (req : Request) : M Response :=
  match method req with
  | OPTIONS =>
      ret (cors_ok cfg req
             (set_header (lit "Access-Control-Allow-Headers")
                (lit "Content-Type, Authorization")
                (set_header (lit "Access-Control-Allow-Methods")
                   (lit "POST, OPTIONS") (make_response [] 204))))
  | _ =>
      if negb (origin_allowed cfg req)
      then ret (with_status 403 (jsonify [(lit "error", lit "Origin not allowed")]))
      else
        parsed <- lift (get_json req) ;;
        let data := or_else parsed (PDict []) in
        pid <- lift (get data (lit "productId")) ;;
        product_id <- lift (strip_method (or_else pid (PStr []))) ;;
        sv <- lift (get data (lit "svg")) ;;
        let svg := or_else sv (PStr []) in
        state <- lift (get data (lit "state")) ;;
        if negb (nonempty product_id) || negb (truthy svg)
        then ret (with_status 400
                    (cors_ok cfg req
                       (jsonify [(lit "error", lit "productId and svg are required")])))
        else
          n <- lift (len_builtin svg) ;;
          if (SVG_LIMIT <? n)%N
          then ret (with_status 413
                      (cors_ok cfg req (jsonify [(lit "error", lit "SVG too large")])))
          else store_design cfg req product_id svg state
  end.

(** The file name offered for the download. *)
Definition safe_name (product_id : str) : str :=
  lower
    (strip_chars (lit "-")
       (map (fun ch => if isalnum ch then ch else "-"%char)
          (if nonempty product_id then product_id else lit "design"))).

(** The data URL of the SVG text. *)
Definition svg_data_url (svg_text : str) : str :=
  lit "data:image/svg+xml;base64," ++ Base64.b64encode (Utf8.encode svg_text).

Definition nl : str := [ascii_of_N 10].
Definition line (s : string) : str := lit s ++ nl.
Definition middle_dot : ascii := ascii_of_N 183.

(** The literal text of the page, between the places it is filled in. *)
Definition html_to_title : str :=
  nl ++ line "<!doctype html>" ++ line "<html>" ++ line "  <head>"
  ++ line "    <meta charset='utf-8'>"
  ++ line "    <meta name='viewport' content='width=device-width, initial-scale=1'>"
  ++ lit "    <title>Design ".

Definition html_to_heading : str :=
  line "</title>" ++ line "    <style>"
  ++ line "      body { font-family: Arial, Helvetica, sans-serif; margin: 16px; }"
  ++ line "      .wrap { max-width: 980px; margin: 0 auto; }"
  ++ line "      .meta { color:#666; font-size: 13px; margin-bottom: 8px; }"
  ++ line "      .preview { border:1px solid #ddd; border-radius:8px; overflow:auto; background:#fafafa; padding:8px; }"
  ++ line "      .actions { margin-top:12px; display:flex; gap:8px; }"
  ++ line "      .btn { border:1px solid #ddd; background:#fff; padding:8px 10px; border-radius:6px; text-decoration:none; color:#111; }"
  ++ line "    </style>" ++ line "  </head>" ++ line "  <body>"
  ++ line "    <div class='wrap'>" ++ lit "      <h2>Design code: ".

Definition html_to_product : str :=
  line "</h2>" ++ lit "      <div class='meta'>Product: ".

Definition html_to_created : str :=
  lit " " ++ [middle_dot] ++ lit " Created: ".

Definition html_to_img : str :=
  line " UTC</div>" ++ line "      <div class='preview'>"
  ++ lit "        <img src='".

Definition html_to_href : str :=
  line "' alt='SVG preview' style='max-width:100%; height:auto; display:block;'>"
  ++ line "      </div>" ++ line "      <div class='actions'>"
  ++ lit "        <a class='btn' href='".

Definition html_to_download : str := lit "' download='".

Definition html_to_end : str :=
  line ".svg'>Download SVG</a>" ++ line "      </div>" ++ line "    </div>"
  ++ line "  </body>" ++ line "  </html>" ++ lit "            ".

(** The f-string [html] of [view_design], with the text put in the
    product slot as an argument. *)
Definition html_with (shown_product : str) (c : str) (design : Design) : str :=
  html_to_title ++ c
  ++ html_to_heading ++ c
  ++ html_to_product ++ shown_product
  ++ html_to_created ++ strftime (created_at design)
  ++ html_to_img ++ svg_data_url (svg design)
  ++ html_to_href ++ svg_data_url (svg design)
  ++ html_to_download ++ safe_name (product_id design) ++ lit "-" ++ c
  ++ html_to_end.

Definition html (c : str) (design : Design) : str :=
  html_with (product_id design) c design.

(** The value of the [download] attribute. *)
Definition download_name (c : str) (design : Design) : str :=
  safe_name (product_id design) ++ lit "-" ++ c ++ lit ".svg".

Definition quote : ascii := ascii_of_N 34.

(** The [try] block of [view_design]. *)
Definition render_design (c : str) : M Response :=
  found <- query_first c ;;
  match found with
  | None => ret (make_response (lit "Code not found") 404)
  | Some design => ret (make_response (html c design) 200)
  end.

Definition challenge : Response :=
  set_header (lit "WWW-Authenticate")
    (lit "Basic realm=" ++ [quote] ++ lit "Designs" ++ [quote])
    (make_response (lit "Authentication required") 401).

(** [view_design], the handler of [/d/<code>]. *)
Definition view_design (cfg : Config) (req : Request) (c : str) : M Response :=
  if nonempty (ADMIN_USER cfg) && nonempty (ADMIN_PASS cfg)
  then
    if negb (require_basic_auth cfg req) then ret challenge
    else render_design c
  else render_design c.

End App.

(** ** The specification's wording, for comparison with the code *)

Module Spec.
Import Py.

(** Escaping for HTML embedding: the five characters of [html.escape]. *)
Fixpoint html_escape (s : str) : str :=
  match s with
  | [] => []
  | c :: s' =>
      (if Ascii.eqb c "&" then lit "&amp;"
       else if Ascii.eqb c "<" then lit "&lt;"
       else if Ascii.eqb c ">" then lit "&gt;"
       else if Ascii.eqb c App.quote then lit "&quot;"
       else if Ascii.eqb c "'" then lit "&#x27;"
       else [c]) ++ html_escape s'
  end.

(** The page with the product reference escaped. *)
Definition html_escaped (c : str) (design : App.Design) : str :=
  App.html_with (html_escape (App.product_id design)) c design.

(** Every run of characters that are not alphanumeric becomes one
    separator. *)
Fixpoint collapse_runs (in_run : bool) (s : str) : str :=
  match s with
  | [] => []
  | c :: s' =>
      if isalnum c then c :: collapse_runs false s'
      else if in_run then collapse_runs true s'
      else "-"%char :: collapse_runs true s'
  end.

(** Lower case, runs collapsed, separators trimmed, a default name when
    nothing is left, then the code and the extension. *)
Definition download_name (c : str) (product : str) : str :=
  let base := strip_chars (lit "-") (collapse_runs false (lower product)) in
  (if App.nonempty base then base else lit "design")
  ++ lit "-" ++ c ++ lit ".svg".

End Spec.

(** ** Vocabulary of the statements *)

Module Obs.
Import Py App.

(** ASCII letters and digits. *)
Definition ascii_alnum (c : ascii) : bool :=
  let n := ord c in
  between 48 57 n || between 65 90 n || between 97 122 n.

(** URL-safe characters: letters, digits, hyphen and underscore. *)
Definition url_safe (c : ascii) : bool :=
  ascii_alnum c || Ascii.eqb c "-" || Ascii.eqb c "_".

(** The characters of padded base64 text. *)
Definition b64_char (c : ascii) : bool :=
  ascii_alnum c || Ascii.eqb c "+" || Ascii.eqb c "/" || Ascii.eqb c "=".

(** The sixty-four characters of the base64 alphabet. *)
Definition in_alphabet (c : ascii) : bool :=
  ascii_alnum c || Ascii.eqb c "+" || Ascii.eqb c "/".

(** Every byte, for checks by enumeration. *)
Definition all_bytes : list byte :=
  Eval vm_compute in
    flat_map (fun n => match Byte.of_nat n with Some b => [b] | None => [] end)
      (seq 0 256).

(** The character stands for the six-bit group. *)
Definition same_sextet (c : ascii) (s : N) : bool :=
  match Base64.sextet_of_char c with
  | Some s' => N.eqb s' s
  | None => false
  end.

(** The characters that open or close HTML markup or an attribute. *)
Definition markup_char (c : ascii) : bool :=
  Ascii.eqb c "<" || Ascii.eqb c ">" || Ascii.eqb c "&"
  || Ascii.eqb c "'" || Ascii.eqb c quote.

Fixpoint starts_with (pat s : str) : bool :=
  match pat, s with
  | [], _ => true
  | p :: pat', c :: s' => Ascii.eqb p c && starts_with pat' s'
  | _ :: _, [] => false
  end.

(** [pat in s] *)
Fixpoint occurs (pat s : str) : bool :=
  starts_with pat s ||
  match s with
  | [] => false
  | _ :: s' => occurs pat s'
  end.

(** The least number of bytes a JSON string needs for a character: the
    quote, the backslash and the control characters are escaped, and
    the characters from U+0080 on take two bytes or an escape. *)
Definition least_char_size (c : ascii) : N :=
  let n := ord c in
  if (n =? 34)%N || (n =? 92)%N || (n <? 32)%N || (127 <? n)%N then 2%N else 1%N.

(** The least number of bytes of a JSON string for the text: the two
    quotes and the characters. *)
Definition least_string_size (s : str) : N :=
  fold_left (fun acc c => (acc + least_char_size c)%N) s 2%N.

(** A lower bound on the size of a body that parses to the value. *)
Fixpoint least_body_size (v : value) : N :=
  match v with
  | PNone => 4
  | PBool b => if b then 4 else 5
  | PInt _ => 1
  | PFloat _ => 1
  | PStr s => least_string_size s
  | PList l =>
      2 + (fix items (l : list value) : N :=
             match l with
             | [] => 0
             | [x] => least_body_size x
             | x :: l' => least_body_size x + 1 + items l'
             end) l
  | PDict d =>
      2 + (fix entries (d : list (str * value)) : N :=
             match d with
             | [] => 0
             | [(k, x)] => least_string_size k + 1 + least_body_size x
             | (k, x) :: d' =>
                 least_string_size k + 1 + least_body_size x + 1 + entries d'
             end) d
  end%N.

(** Some row has the code. *)
Definition taken (w : World) (c : str) : bool :=
  existsb (fun r => str_eqb (code r) c) (designs w).

(** The code [generate_code] makes of the [i]-th token after the
    position of the entropy source in [w]. *)
Definition candidate (w : World) (i : nat) : str :=
  code_of_token
    (Secrets.urlsafe_text
       (map (Secrets.supply (rng w))
          (seq (Secrets.cursor (rng w) + 7 * i) 7))).

(** The world after [k] codes have been generated. *)
Definition advance (k : nat) (w : World) : World :=
  {| rng := {| Secrets.supply := Secrets.supply (rng w);
               Secrets.cursor := Secrets.cursor (rng w) + 7 * k |};
     utcnow := utcnow w; designs := designs w |}.

(** The index of the candidate the retry loop leaves with, when it starts
    at candidate [k] with [n] rounds to go. *)
Fixpoint settle (w : World) (n k : nat) : nat :=
  match n with
  | O => k
  | S n' => if taken w (candidate w k) then settle w n' (S k) else k
  end.

(** The row a successful commit appends. *)
Definition new_row (w : World) (c product text : str) (state : value) : Design :=
  {| id := len (designs w) + 1; code := c; product_id := product; svg := text;
     state_json := state_json_of state; created_at := utcnow w |}.

Definition with_row (w : World) (d : Design) : World :=
  {| rng := rng w; utcnow := utcnow w; designs := designs w ++ [d] |}.

(** How far the entropy source has been read. *)
Definition drawn (w : World) : nat := Secrets.cursor (rng w).

(** The submission carries text under both keys and passes the checks
    of [save_design]: the origin check, the cap on the body that
    [get_json] applies before it returns the object, the presence check
    and the size check. *)
Definition valid_submission (cfg : Config) (req : Request)
    (product svg_text : str) : Prop :=
  method req = POST
  /\ origin_allowed cfg req = true
  /\ (exists d, get_json req = PDict d
        /\ assoc (lit "productId") d = Some (PStr product)
        /\ assoc (lit "svg") d = Some (PStr svg_text))
  /\ strip product <> []
  /\ svg_text <> []
  /\ (len svg_text <= SVG_LIMIT)%N.

(** Every way [save_design] can end. *)
Inductive save_path (cfg : Config) (req : Request) (w : World) :
    outcome Response * World -> Prop :=
| path_preflight r :
    method req = OPTIONS -> status r = 204%N ->
    save_path cfg req w (Ok r, w)
| path_origin :
    method req <> OPTIONS -> origin_allowed cfg req = false ->
    save_path cfg req w
      (Ok (with_status 403 (jsonify [(lit "error", lit "Origin not allowed")])),
       w)
| path_body_too_large :
    method req <> OPTIONS -> origin_allowed cfg req = true ->
    save_path cfg req w (Raise RequestEntityTooLarge, w)
| path_no_method :
    method req <> OPTIONS -> origin_allowed cfg req = true ->
    save_path cfg req w (Raise AttributeError, w)
| path_required :
    method req <> OPTIONS -> origin_allowed cfg req = true ->
    save_path cfg req w
      (Ok (with_status 400
             (cors_ok cfg req
                (jsonify [(lit "error", lit "productId and svg are required")]))), w)
| path_unsized :
    method req <> OPTIONS -> origin_allowed cfg req = true ->
    save_path cfg req w (Raise TypeError, w)
| path_too_large :
    method req <> OPTIONS -> origin_allowed cfg req = true ->
    save_path cfg req w
      (Ok (with_status 413
             (cors_ok cfg req (jsonify [(lit "error", lit "SVG too large")]))), w)
| path_store product sv state :
    method req <> OPTIONS -> origin_allowed cfg req = true ->
    save_path cfg req w (store_design cfg req product sv state w).

(** The answer to a request from an origin that is not allowed. *)
Definition origin_refused : Response :=
  with_status 403 (jsonify [(lit "error", lit "Origin not allowed")]).

(** The request with another JSON body. *)
Definition with_json (req : Request) (v : value) : Request :=
  {| method := method req; origin := origin req;
     authorization := authorization req; is_json := is_json req;
     content_length := content_length req; json := v |}.

(** The same design with other SVG text. *)
Definition with_svg (d : Design) (text : str) : Design :=
  {| id := id d; code := code d; product_id := product_id d; svg := text;
     state_json := state_json d; created_at := created_at d |}.

(** The character [safe_name] puts in the place of [ch]. *)
Definition dash_unless_alnum (ch : ascii) : ascii :=
  if isalnum ch then ch else "-"%char.

(** The credential gate of [view_design] lets the request through. *)
Definition gate_open (cfg : Config) (req : Request) : Prop :=
  ADMIN_USER cfg = [] \/ ADMIN_PASS cfg = []
  \/ authorization req = Some (ADMIN_USER cfg, ADMIN_PASS cfg).

End Obs.

(** ** Worlds and requests used as concrete instances *)

Module Sample.
Import Py App.

Definition noon : datetime :=
  {| year := 2024; month := 3; day := 9; hour := 12; minute := 0; second := 0 |}.

(** Entropy: 21 zero bytes, then 0xff for ever. *)
Definition entropy : Secrets.source :=
  {| Secrets.supply := fun n => if Nat.ltb n 21 then x00 else xff;
     Secrets.cursor := 0 |}.

Definition row (c product text : string) : Design :=
  {| id := 1; code := lit c; product_id := lit product; svg := lit text;
     state_json := None; created_at := noon |}.

Definition empty_world : World :=
  {| rng := entropy; utcnow := noon; designs := [] |}.

(** One stored design, under the code the zero bytes give. *)
Definition world_with (product : string) : World :=
  {| rng := entropy; utcnow := noon;
     designs := [row "AAAAAAAAAA" product "<svg/>"] |}.

Definition open_config : Config :=
  {| ALLOWED_ORIGIN := lit "*"; ADMIN_USER := []; ADMIN_PASS := [] |}.

Definition strict_config : Config :=
  {| ALLOWED_ORIGIN := lit "https://example.com";
     ADMIN_USER := lit "admin"; ADMIN_PASS := lit "s3cret" |}.

(** A POST with a JSON body of the least size its value allows. *)
Definition post (o : option str) (body : value) : Request :=
  {| method := POST; origin := o; authorization := None; is_json := true;
     content_length := Obs.least_body_size body; json := body |}.

Definition browse (auth : option (str * str)) : Request :=
  {| method := GET; origin := None; authorization := auth;
     is_json := false; content_length := 0; json := PNone |}.

Definition submission (product : string) (sv : value) : value :=
  PDict [(lit "productId", PStr (lit product)); (lit "svg", sv)].

Definition example_origin : option str := Some (lit "https://example.com").
Definition evil_origin : option str := Some (lit "https://evil.com").

Definition admin_login : option (str * str) := Some (lit "admin", lit "s3cret").
Definition wrong_login : option (str * str) := Some (lit "admin", lit "S3cret").
Definition zero_code : str := lit "AAAAAAAAAA".

Definition markup_product : string := "<b>Mug</b>".
Definition spaced_product : string := "a  b".


Definition mug_request : Request :=
  post None (submission "Mug" (PStr (lit "<svg/>"))).

(** SVG text of 1,500,000 double quotes, and a submission of it. *)
Definition svg_of_quotes : str := N.iter 1500000 (cons quote) [].
Definition quotes_request : Request :=
  post None (PDict [(lit "productId", PStr (lit "Mug"));
                    (lit "svg", PStr svg_of_quotes)]).

(** [ALLOWED_ORIGIN] set to the empty string, and a submission whose
    [Origin] header is empty. *)
Definition blank_config : Config :=
  {| ALLOWED_ORIGIN := []; ADMIN_USER := []; ADMIN_PASS := [] |}.
Definition blank_origin_request : Request :=
  post (Some []) (submission "Mug" (PStr (lit "<svg/>"))).

(** A POST of a form of three mebibytes: the content type is not JSON. *)
Definition form_post : Request :=
  {| method := POST; origin := None; authorization := None;
     is_json := false; content_length := 3 * 1024 * 1024; json := PNone |}.

Definition preflight_from_evil : Request :=
  {| method := OPTIONS; origin := evil_origin; authorization := None;
     is_json := false; content_length := 0; json := PNone |}.

(** SVG text of exactly 1,500,000 and of 1,500,001 characters. *)
Definition svg_at_limit : str := N.iter 1500000 (cons "a"%char) [].
Definition svg_over_limit : str := "a"%char :: svg_at_limit.

(** Submissions with a blank product reference: one with the SVG text
    of 1,500,001 characters, one with the 1,500,000 double quotes. *)
Definition blank_over_limit : Request :=
  post None (submission "   " (PStr svg_over_limit)).
Definition blank_quotes : Request :=
  post None (submission "   " (PStr svg_of_quotes)).

Definition stateful_request : Request :=
  post None (PDict [(lit "productId", PStr (lit "Mug"));
                    (lit "svg", PStr (lit "<svg/>"));
                    (lit "state", PStr [])]).

Definition over_limit_from_example : Request :=
  post example_origin (submission "Mug" (PStr svg_over_limit)).

Definition limit_request : Request :=
  post None (PDict [(lit "productId", PStr (lit "Mug"));
                    (lit "svg", PStr svg_at_limit)]).
Definition over_limit_request : Request :=
  post None (PDict [(lit "productId", PStr (lit "Mug"));
                    (lit "svg", PStr svg_over_limit)]).

End Sample.

(** ** The rest of the application: start-up, the liveness probe, and
    runs of several requests *)

Module Service.
Import Py App.

(** [os.environ], as the lookups of [create_app] see it. *)
Definition environ := str -> option str.

(** [os.environ.get(key, default)] *)
Definition environ_get (env : environ) (key default : str) : str :=
  match env key with
  | Some v => v
  | None => default
  end.

(** [get_database_url] *)
Definition get_database_url (env : environ) : str :=
  environ_get env (lit "DATABASE_URL") (lit "sqlite:///designs.db").

(** The three settings [create_app] reads from the environment. *)
Definition load_config (env : environ) : Config :=
  {| ALLOWED_ORIGIN := environ_get env (lit "ALLOWED_ORIGIN") (lit "*");
     ADMIN_USER := environ_get env (lit "ADMIN_USER") [];
     ADMIN_PASS := environ_get env (lit "ADMIN_PASS") [] |}.

(** [healthz], the handler of [/healthz]. *)
Definition healthz : M Response := ret (make_response (lit "ok") 200).

(** [str(v)], kept symbolic unless [v] is text. *)
Definition str_builtin (v : value) : state_text :=
  match v with
  | PStr s => Verbatim s
  | _ => StrOf v
  end.

(** [bool(t)] of an optional text.  The text of a value that is not a
    string is never empty. *)
Definition text_truthy (t : option state_text) : bool :=
  match t with
  | Some (Verbatim s) => nonempty s
  | Some (StrOf _) => true
  | None => false
  end.

(** The expression assigned to [state_json], operand by operand:
    [(state if isinstance(state, str) else None)
      or (None if state is None else str(state))]. *)
Definition state_json_expr (state : value) : option state_text :=
  let left := match state with PStr s => Some (Verbatim s) | _ => None end in
  let right := match state with PNone => None | _ => Some (str_builtin state) end in
  if text_truthy left then left else right.

(** What happens to the service between two looks at it: a submission,
    a retrieval, a liveness probe, or the clock moving. *)
Inductive call :=
| Submit (req : Request)
| Browse (req : Request) (c : str)
| Probe
| Tick (now : datetime).

Definition handle (cfg : Config) (k : call) (w : World) : World :=
  match k with
  | Submit req => snd (save_design cfg req w)
  | Browse req c => snd (view_design cfg req c w)
  | Probe => snd (healthz w)
  | Tick now => {| rng := rng w; utcnow := now; designs := designs w |}
  end.

(** The world after a sequence of calls. *)
Fixpoint serve (cfg : Config) (calls : list call) (w : World) : World :=
  match calls with
  | [] => w
  | k :: rest => serve cfg rest (handle cfg k w)
  end.

(** What the handlers keep true of a row. *)
Definition row_ok (d : Design) : Prop :=
  1 <= List.length (code d) <= 10
  /\ Forall (fun ch => Obs.ascii_alnum ch = true) (code d)
  /\ product_id d <> []
  /\ strip (product_id d) = product_id d
  /\ svg d <> []
  /\ (len (svg d) <= SVG_LIMIT)%N.

(** What the handlers keep true of the table: no two rows share a code,
    the rows are numbered from 1 in the order they were inserted, and
    every row is well-formed. *)
Definition table_ok (t : list Design) : Prop :=
  NoDup (map code t)
  /\ map id t = map N.of_nat (seq 1 (List.length t))
  /\ Forall row_ok t.

(** [d.get(key)] on the entries of a dict. *)
Definition lookup (d : list (str * value)) (key : str) : value :=
  match assoc key d with
  | Some v => v
  | None => PNone
  end.

(** [save_design] from the [strip] call on, given the three values it
    read from the body. *)
Definition check_and_store (cfg : Config) (req : Request)
    (pid sv state : value) : M Response :=
  product_id <- lift (strip_method (or_else pid (PStr []))) ;;
  let svg := or_else sv (PStr []) in
  if negb (nonempty product_id) || negb (truthy svg)
  then ret (with_status 400
              (cors_ok cfg req
                 (jsonify [(lit "error", lit "productId and svg are required")])))
  else
    n <- lift (len_builtin svg) ;;
    if (SVG_LIMIT <? n)%N
    then ret (with_status 413
                (cors_ok cfg req (jsonify [(lit "error", lit "SVG too large")])))
    else store_design cfg req product_id svg state.

(** The 400 answer of [save_design]. *)
Definition fields_required (cfg : Config) (req : Request) : Response :=
  with_status 400
    (cors_ok cfg req
       (jsonify [(lit "error", lit "productId and svg are required")])).

(** The names of the headers [cors_ok] sets. *)
Definition ACAO : str := lit "Access-Control-Allow-Origin".
Definition VARY : str := lit "Vary".
Definition ACAC : str := lit "Access-Control-Allow-Credentials".

(** [cors_ok] decorates the response: the configuration is the wild
    card, or the request names the configured origin. *)
Definition cors_granted (cfg : Config) (req : Request) : Prop :=
  ALLOWED_ORIGIN cfg = lit "*"
  \/ (origin req = Some (ALLOWED_ORIGIN cfg) /\ ALLOWED_ORIGIN cfg <> []).

(** The value of the [Access-Control-Allow-Origin] header [cors_ok]
    sets. *)
Definition echoed_origin (o : option str) : str :=
  match o with
  | Some (c :: s) => c :: s
  | _ => lit "*"
  end.

End Service.

(** ** Strings *)

Section Strings.
Import Py.

Lemma str_eqb_eq (a b : str) : str_eqb a b = true <-> a = b.
Proof.
  revert b; induction a as [|x a IH]; intros [|y b]; simpl; split;
    try congruence; try reflexivity.
  - intros H. apply andb_true_iff in H as [H1 H2].
    apply Ascii.eqb_eq in H1. apply IH in H2. congruence.
  - intros H. injection H as -> ->. rewrite Ascii.eqb_refl. simpl.
    apply IH. reflexivity.
Qed.

Lemma str_eqb_refl (a : str) : str_eqb a a = true.
Proof. apply str_eqb_eq. reflexivity. Qed.

Lemma str_eqb_neq (a b : str) : str_eqb a b = false <-> a <> b.
Proof.
  split.
  - intros H E. apply str_eqb_eq in E. congruence.
  - intros H. destruct (str_eqb a b) eqn:E; [|reflexivity].
    apply str_eqb_eq in E. contradiction.
Qed.

Lemma nonempty_true (s : str) : App.nonempty s = true <-> s <> [].
Proof.
  unfold App.nonempty; simpl. destruct s; simpl; split; congruence.
Qed.

Lemma nonempty_false (s : str) : App.nonempty s = false <-> s = [].
Proof.
  unfold App.nonempty; simpl. destruct s; simpl; split; congruence.
Qed.

Lemma len_from_length {A} (l : list A) (acc : N) :
  len_from acc l = (acc + N.of_nat (List.length l))%N.
Proof.
  revert acc; induction l as [|x l IH]; intros acc; simpl.
  - lia.
  - rewrite IH. lia.
Qed.

Lemma len_length {A} (l : list A) : len l = N.of_nat (List.length l).
Proof. unfold len. rewrite len_from_length. lia. Qed.

Lemma len_nil_iff {A} (l : list A) : len l = 0%N <-> l = [].
Proof.
  rewrite len_length. destruct l; simpl; split; try congruence; lia.
Qed.

Lemma len_cons {A} (x : A) (l : list A) : len (x :: l) = N.succ (len l).
Proof. rewrite !len_length. cbn [List.length]. lia. Qed.

(** Text of [n] copies of one character has [n] characters. *)
Lemma len_copies (c : ascii) (n : N) : len (N.iter n (cons c) []) = n.
Proof.
  induction n as [|n IH] using N.peano_ind; [reflexivity|].
  rewrite N.iter_succ, len_cons, IH. reflexivity.
Qed.

Lemma replace_delete_Forall (P : ascii -> Prop) (old : ascii) (s : str) :
  Forall P s -> Forall P (replace old [] s).
Proof.
  induction 1 as [|c s Hc Hs IH]; simpl; [constructor|].
  destruct (Ascii.eqb c old); simpl; auto.
Qed.

Lemma replace_delete_In (old x : ascii) (s : str) :
  In x s -> x <> old -> In x (replace old [] s).
Proof.
  intros Hin Hne. induction s as [|c s IH]; simpl in *; [contradiction|].
  destruct Hin as [->|Hin].
  - destruct (Ascii.eqb x old) eqn:E.
    + apply Ascii.eqb_eq in E. contradiction.
    + left. reflexivity.
  - destruct (Ascii.eqb c old); simpl; auto.
Qed.

Lemma Forall_slice_to (P : ascii -> Prop) (n : nat) (s : str) :
  Forall P s -> Forall P (slice_to n s).
Proof.
  unfold slice_to. intros H. revert n.
  induction H as [|c s Hc Hs IH]; intros [|n]; simpl; auto.
Qed.

Lemma dropwhile_all (p : ascii -> bool) (l rest : str) :
  forallb p l = true -> dropwhile p (l ++ rest) = dropwhile p rest.
Proof.
  induction l as [|c l IH]; simpl; [reflexivity|].
  intros H. apply andb_true_iff in H as [-> H]. auto.
Qed.

(** [rstrip] removes a tail of stripped characters and stops at the first
    character that is not one. *)
Lemma rstrip_by_tail (p : ascii -> bool) (s t : str) (c : ascii) :
  p c = false -> forallb p t = true ->
  rstrip_by p (s ++ c :: t) = s ++ [c].
Proof.
  intros Hc Ht. unfold rstrip_by.
  rewrite rev_app_distr. simpl. rewrite <- app_assoc. simpl.
  rewrite dropwhile_all.
  - simpl. rewrite Hc. simpl. rewrite rev_involutive. reflexivity.
  - rewrite forallb_forall in *. intros x Hx. apply Ht, in_rev, Hx.
Qed.

End Strings.

(** ** Checks by enumeration of bytes and characters *)

Section Enumeration.
Import Py Obs.

Lemma all_bytes_nth (b : byte) : nth_error all_bytes (Byte.to_nat b) = Some b.
Proof. destruct b; reflexivity. Qed.

Lemma all_bytes_complete (b : byte) : In b all_bytes.
Proof. eapply nth_error_In. apply all_bytes_nth. Qed.

Lemma forall_bytes (P : byte -> bool) :
  forallb P all_bytes = true -> forall b, P b = true.
Proof.
  intros H b. rewrite forallb_forall in H. apply H, all_bytes_complete.
Qed.

Lemma forall_bytes2 (P : byte -> byte -> bool) :
  forallb (fun a => forallb (P a) all_bytes) all_bytes = true ->
  forall a b, P a b = true.
Proof.
  intros H a b. apply forall_bytes. revert a. apply forall_bytes. exact H.
Qed.

Lemma forall_chars (P : ascii -> bool) :
  forallb (fun b => P (ascii_of_byte b)) all_bytes = true ->
  forall c, P c = true.
Proof.
  intros H c. rewrite <- (ascii_of_byte_of_ascii c).
  apply (forall_bytes (fun b => P (ascii_of_byte b))). exact H.
Qed.

End Enumeration.

(** Settle a fact about one byte, two bytes or one character by running
    the check on all of them. *)
Ltac by_bytes := apply forall_bytes; vm_compute; reflexivity.
Ltac by_byte_pairs := apply forall_bytes2; vm_compute; reflexivity.
Ltac by_chars := apply forall_chars; vm_compute; reflexivity.

(** ** Base64 *)

Section Base64Facts.
Import Py Obs Base64.

Local Notation "# b" := (Byte.to_N b) (at level 9, format "# b").

Lemma first_char_in_alphabet (a : byte) :
  in_alphabet (char_of_sextet (sextet0 #a)) = true.
Proof. revert a. by_bytes. Qed.

Lemma second_char_in_alphabet (a b : byte) :
  in_alphabet (char_of_sextet (sextet1 #a #b)) = true.
Proof. revert a b. by_byte_pairs. Qed.

Lemma third_char_in_alphabet (a b : byte) :
  in_alphabet (char_of_sextet (sextet2 #a #b)) = true.
Proof. revert a b. by_byte_pairs. Qed.

Lemma fourth_char_in_alphabet (a : byte) :
  in_alphabet (char_of_sextet (sextet3 #a)) = true.
Proof. revert a. by_bytes. Qed.

(** The second character of a group that ends the data carries two bits
    of data and four zero bits: it is a letter. *)
Lemma last_char_of_short_group (a : byte) :
  ascii_alnum (char_of_sextet (sextet1 #a 0)) = true.
Proof. revert a. by_bytes. Qed.

Lemma in_alphabet_not_pad (c : ascii) :
  in_alphabet c = true -> Ascii.eqb c pad = false.
Proof.
  intros H.
  assert (G : negb (in_alphabet c) || negb (Ascii.eqb c pad) = true).
  { revert c H. intros c _. revert c. by_chars. }
  rewrite H in G. simpl in G. destruct (Ascii.eqb c pad); [discriminate|reflexivity].
Qed.

Lemma in_alphabet_b64_char (c : ascii) : in_alphabet c = true -> b64_char c = true.
Proof. unfold b64_char, in_alphabet. intros ->. reflexivity. Qed.

Lemma in_alphabet_url_safe (c : ascii) :
  in_alphabet c = true -> url_safe (urlsafe_char c) = true.
Proof.
  intros H.
  assert (G : negb (in_alphabet c) || url_safe (urlsafe_char c) = true).
  { clear H. revert c. by_chars. }
  rewrite H in G. exact G.
Qed.

Lemma ascii_alnum_facts (c : ascii) :
  ascii_alnum c = true ->
  urlsafe_char c = c /\ url_safe c = true /\ in_alphabet c = true
  /\ c <> "-"%char /\ c <> "_"%char /\ c <> pad.
Proof.
  intros H.
  assert (G : negb (ascii_alnum c)
              || (Ascii.eqb (urlsafe_char c) c && url_safe c && in_alphabet c
                  && negb (Ascii.eqb c "-") && negb (Ascii.eqb c "_")
                  && negb (Ascii.eqb c pad)) = true).
  { clear H. revert c. by_chars. }
  rewrite H in G. simpl in G.
  repeat (apply andb_true_iff in G as [G ?]).
  apply Ascii.eqb_eq in G.
  repeat split; auto; intros ->; discriminate.
Qed.

End Base64Facts.

Create HintDb alphabet.
#[global] Hint Resolve in_alphabet_b64_char in_alphabet_url_safe
  first_char_in_alphabet second_char_in_alphabet third_char_in_alphabet
  fourth_char_in_alphabet : alphabet.

Section Base64Text.
Import Py Obs Base64.

Lemma b64encode_chars (data : bytes) :
  Forall (fun c => b64_char c = true) (b64encode data).
Proof.
  assert (H : forall n (d : bytes), List.length d < n ->
              Forall (fun c => b64_char c = true) (b64encode d)).
  { induction n as [|n IH]; intros d Hn; [lia|].
    destruct d as [|b0 [|b1 [|b2 rest]]]; simpl.
    - constructor.
    - change 0%N with (Byte.to_N x00).
      repeat (constructor; [solve [auto with alphabet]|]). constructor.
    - change 0%N with (Byte.to_N x00).
      repeat (constructor; [solve [auto with alphabet]|]). constructor.
    - repeat (constructor; [solve [auto with alphabet]|]).
      apply IH. simpl in Hn. lia. }
  apply (H (S (List.length data))). lia.
Qed.

End Base64Text.

(** ** The code generator *)

Section CodeGenerator.
Import Py Obs Base64 App.

(** The text of a seven-byte token: ten characters, the padding gone. *)
Lemma urlsafe_text_of_seven (b0 b1 b2 b3 b4 b5 b6 : byte) :
  Secrets.urlsafe_text [b0; b1; b2; b3; b4; b5; b6] =
  map urlsafe_char
    [char_of_sextet (sextet0 (Byte.to_N b0));
     char_of_sextet (sextet1 (Byte.to_N b0) (Byte.to_N b1));
     char_of_sextet (sextet2 (Byte.to_N b1) (Byte.to_N b2));
     char_of_sextet (sextet3 (Byte.to_N b2));
     char_of_sextet (sextet0 (Byte.to_N b3));
     char_of_sextet (sextet1 (Byte.to_N b3) (Byte.to_N b4));
     char_of_sextet (sextet2 (Byte.to_N b4) (Byte.to_N b5));
     char_of_sextet (sextet3 (Byte.to_N b5));
     char_of_sextet (sextet0 (Byte.to_N b6));
     char_of_sextet (sextet1 (Byte.to_N b6) 0)].
Proof.
  destruct (ascii_alnum_facts _ (last_char_of_short_group b6))
    as (Hu & _ & _ & _ & _ & Hp).
  unfold Secrets.urlsafe_text, rstrip_chars, urlsafe_b64encode.
  cbn [b64encode map].
  match goal with
  | |- rstrip_by ?p [?c0; ?c1; ?c2; ?c3; ?c4; ?c5; ?c6; ?c7; ?c8; ?c9; ?q; ?q'] = _ =>
      change (rstrip_by p ([c0; c1; c2; c3; c4; c5; c6; c7; c8] ++ c9 :: [q; q'])
              = [c0; c1; c2; c3; c4; c5; c6; c7; c8] ++ [c9])
  end.
  apply rstrip_by_tail; [|reflexivity].
  rewrite Hu. unfold mem_char; simpl. rewrite orb_false_r.
  apply Ascii.eqb_neq. exact Hp.
Qed.

Lemma token_text_url_safe (b0 b1 b2 b3 b4 b5 b6 : byte) :
  Forall (fun c => url_safe c = true)
    (Secrets.urlsafe_text [b0; b1; b2; b3; b4; b5; b6]).
Proof.
  rewrite urlsafe_text_of_seven. cbn [map].
  repeat (constructor; [solve [auto with alphabet]|]).
  constructor; [|constructor].
  apply in_alphabet_url_safe.
  apply (ascii_alnum_facts _ (last_char_of_short_group b6)).
Qed.

(** The last character of the token survives the two [replace] calls. *)
Lemma token_text_keeps_last (b0 b1 b2 b3 b4 b5 b6 : byte) :
  In (char_of_sextet (sextet1 (Byte.to_N b6) 0))
    (replace "_" [] (replace "-" [] (Secrets.urlsafe_text [b0; b1; b2; b3; b4; b5; b6]))).
Proof.
  destruct (ascii_alnum_facts _ (last_char_of_short_group b6))
    as (Hu & _ & _ & Hh & Hs & _).
  apply replace_delete_In; [apply replace_delete_In|]; auto.
  rewrite urlsafe_text_of_seven. cbn [map]. rewrite Hu.
  do 9 right. left. reflexivity.
Qed.

Lemma code_of_token_shape (b0 b1 b2 b3 b4 b5 b6 : byte) :
  let c := code_of_token (Secrets.urlsafe_text [b0; b1; b2; b3; b4; b5; b6]) in
  1 <= List.length c <= 10 /\ Forall (fun ch => url_safe ch = true) c.
Proof.
  cbv zeta. unfold code_of_token. split; [split|]; [unfold slice_to ..|].
  - pose proof (token_text_keeps_last b0 b1 b2 b3 b4 b5 b6) as Hin.
    destruct (replace "_" [] (replace "-" [] _)) as [|x l] in Hin |- *;
      [contradiction|].
    simpl. lia.
  - rewrite length_firstn. lia.
  - apply Forall_slice_to.
    do 2 apply replace_delete_Forall. apply token_text_url_safe.
Qed.

Lemma generate_code_run (w : World) :
  generate_code w =
  (Ok (candidate w 0),
   {| rng := {| Secrets.supply := Secrets.supply (rng w);
                Secrets.cursor := Secrets.cursor (rng w) + 7 |};
      utcnow := utcnow w; designs := designs w |}).
Proof.
  unfold generate_code, candidate, Secrets.token_urlsafe, Secrets.token_bytes.
  rewrite Nat.mul_0_r, Nat.add_0_r. reflexivity.
Qed.

Lemma candidate_shape (w : World) (i : nat) :
  1 <= List.length (candidate w i) <= 10
  /\ Forall (fun ch => url_safe ch = true) (candidate w i).
Proof. unfold candidate. cbn [seq map]. apply code_of_token_shape. Qed.

(** C1.  Whatever bytes the entropy source supplies, [generate_code]
    returns a code of one to ten characters, all of them URL-safe; in
    particular the code is never empty. *)
Theorem generate_code_length_and_alphabet (w : App.World) :
  exists c w',
    App.generate_code w = (Py.Ok c, w')
    /\ 1 <= List.length c <= 10
    /\ Forall (fun ch => Obs.url_safe ch = true) c
    /\ c <> [].
Proof.
  exists (candidate w 0). eexists. split; [apply generate_code_run|].
  destruct (candidate_shape w 0) as [Hlen Hall].
  repeat split; try tauto.
  intros E. rewrite E in Hlen. simpl in Hlen. lia.
Qed.

End CodeGenerator.

(** ** The submission handler *)

(** The step of [save_design] that reads the body, when it returns. *)
Ltac read_body Hj :=
  rewrite Hj; unfold App.bind at 1, App.lift at 1, App.returned;
  cbv beta iota.

Section Submission.
Import Py Obs App.

(** The least size of a JSON string of [n] copies of one character. *)
Lemma least_string_size_copies (c : ascii) (n : N) :
  least_string_size (N.iter n (cons c) []) = (2 + n * least_char_size c)%N.
Proof.
  unfold least_string_size. generalize 2%N as k.
  induction n as [|n IH] using N.peano_ind; intros k; [cbn; lia|].
  rewrite N.iter_succ. cbn [fold_left]. rewrite IH. lia.
Qed.

Lemma least_string_size_cons (c : ascii) (s : str) :
  least_string_size (c :: s) = (least_char_size c + least_string_size s)%N.
Proof.
  unfold least_string_size. cbn [fold_left].
  assert (H : forall l k j,
            fold_left (fun acc x => (acc + least_char_size x)%N) l (k + j)%N
            = (k + fold_left (fun acc x => (acc + least_char_size x)%N) l j)%N).
  { induction l as [|x l IH]; intros k j; cbn [fold_left]; [reflexivity|].
    rewrite <- N.add_assoc. apply IH. }
  rewrite (N.add_comm 2). apply H.
Qed.

(** The least size of a body that is an object of two texts. *)
Lemma least_body_size_two_texts (k1 k2 p t : str) :
  least_body_size (PDict [(k1, PStr p); (k2, PStr t)])
  = (2 + (least_string_size k1 + 1 + least_string_size p + 1
          + (least_string_size k2 + 1 + least_string_size t)))%N.
Proof. reflexivity. Qed.

Lemma get_json_returned (req : Request) (v : value) :
  get_json req = returned v ->
  (is_json req = false /\ v = PNone)
  \/ (is_json req = true
      /\ (content_length req <= MAX_CONTENT_LENGTH)%N /\ json req = v).
Proof.
  unfold get_json, returned. destruct (is_json req); cbn [negb].
  - destruct (MAX_CONTENT_LENGTH <? content_length req)%N eqn:E;
      [discriminate|].
    intros H. injection H as <-. right.
    split; [reflexivity|]. split; [apply N.ltb_ge, E|reflexivity].
  - intros H. injection H as <-. left. split; reflexivity.
Qed.

Lemma get_json_not_json (req : Request) :
  is_json req = false ->
  get_json req = returned PNone.
Proof.
  intros H. unfold get_json. rewrite H. reflexivity.
Qed.

Lemma get_json_within (req : Request) :
  is_json req = true ->
  (content_length req <= MAX_CONTENT_LENGTH)%N ->
  get_json req = returned (json req).
Proof.
  intros Hj H. unfold get_json. rewrite Hj. cbn [negb].
  apply N.ltb_ge in H. rewrite H. reflexivity.
Qed.

Lemma get_json_over (req : Request) :
  is_json req = true ->
  (MAX_CONTENT_LENGTH < content_length req)%N ->
  get_json req = Raise RequestEntityTooLarge.
Proof.
  intros Hj H. unfold get_json. rewrite Hj. cbn [negb].
  apply N.ltb_lt in H. rewrite H. reflexivity.
Qed.

Lemma get_json_raises (req : Request) (e : exn) :
  get_json req = Raise e ->
  e = RequestEntityTooLarge
  /\ is_json req = true
  /\ (MAX_CONTENT_LENGTH < content_length req)%N.
Proof.
  unfold get_json, returned. destruct (is_json req); cbn [negb];
    [|discriminate].
  destruct (MAX_CONTENT_LENGTH <? content_length req)%N eqn:E;
    [|discriminate].
  intros H. injection H as <-.
  split; [reflexivity|]. split; [reflexivity|apply N.ltb_lt, E].
Qed.

Lemma find_by_code (c : str) (l : list Design) :
  find (fun d => str_eqb (code d) c) l = None
  <-> existsb (fun d => str_eqb (code d) c) l = false.
Proof.
  induction l as [|d l IH]; simpl; [tauto|].
  destruct (str_eqb (code d) c); simpl; [split; discriminate|exact IH].
Qed.

Lemma generate_code_advance (w : World) (k : nat) :
  generate_code (advance k w) = (Ok (candidate w k), advance (S k) w).
Proof.
  unfold generate_code, advance, candidate, Secrets.token_urlsafe,
    Secrets.token_bytes.
  cbn [rng Secrets.supply Secrets.cursor utcnow designs].
  do 3 f_equal. lia.
Qed.

Lemma generate_code_first (w : World) :
  generate_code w = (Ok (candidate w 0), advance 1 w).
Proof. apply generate_code_run. Qed.

Lemma retry_on_collision_run (w : World) (n k : nat) :
  retry_on_collision n (candidate w k) (advance (S k) w) =
  (Ok (candidate w (settle w n k)), advance (S (settle w n k)) w).
Proof.
  revert k; induction n as [|n IH]; intros k; simpl; [reflexivity|].
  unfold bind, query_first. cbn [designs advance].
  fold (taken w (candidate w k)).
  destruct (find _ (designs w)) as [d|] eqn:F.
  - assert (T : taken w (candidate w k) = true).
    { destruct (taken w (candidate w k)) eqn:T; [reflexivity|].
      apply find_by_code in T. congruence. }
    rewrite T. rewrite generate_code_advance. apply IH.
  - apply find_by_code in F. unfold taken. rewrite F. reflexivity.
Qed.

Lemma settle_bounds (w : World) (n k : nat) :
  k <= settle w n k <= k + n
  /\ (forall i, k <= i < settle w n k -> taken w (candidate w i) = true)
  /\ (settle w n k < k + n -> taken w (candidate w (settle w n k)) = false).
Proof.
  revert k; induction n as [|n IH]; intros k; simpl.
  - split; [lia|split; intros; lia].
  - destruct (taken w (candidate w k)) eqn:T.
    + destruct (IH (S k)) as (B & A & F). split; [lia|split].
      * intros i Hi. destruct (Nat.eq_dec i k) as [->|Hne]; [exact T|].
        apply A. lia.
      * intros Hlt. apply F. lia.
    + split; [lia|split; [intros; lia|intros _; exact T]].
Qed.

(** What the [try] block does: it draws [settle w 3 0 + 1] codes and
    commits the last one. *)
Lemma store_design_run (cfg : Config) (req : Request) (product : str)
    (sv state : value) (w : World) :
  let k := settle w 3 0 in
  let c := candidate w k in
  store_design cfg req product sv state w =
  match sv with
  | PStr text =>
      if taken w c then (Raise IntegrityError, advance (S k) w)
      else (Ok (cors_ok cfg req (jsonify [(lit "code", c)])),
            with_row (advance (S k) w) (new_row w c product text state))
  | _ => (Raise StatementError, advance (S k) w)
  end.
Proof.
  cbv zeta. unfold store_design, bind at 1.
  rewrite generate_code_first. unfold bind at 1.
  rewrite retry_on_collision_run.
  unfold bind, add_and_commit, ret. cbn [new_svg new_code].
  destruct sv; try reflexivity.
  cbn [designs advance]. fold (taken w (candidate w (settle w 3 0))).
  destruct (taken w _); reflexivity.
Qed.

Lemma status_set_header (name v : str) (r : Response) :
  status (set_header name v r) = status r.
Proof. reflexivity. Qed.

Lemma status_cors_ok (cfg : Config) (req : Request) (r : Response) :
  status (cors_ok cfg req r) = status r.
Proof. unfold cors_ok. destruct (_ || _); reflexivity. Qed.

Lemma body_cors_ok (cfg : Config) (req : Request) (r : Response) :
  body (cors_ok cfg req r) = body r.
Proof. unfold cors_ok. destruct (_ || _); reflexivity. Qed.

Lemma strip_nil : strip [] = [].
Proof. reflexivity. Qed.

(** A valid submission reaches the [try] block with the trimmed product
    reference and the SVG text. *)
Lemma save_design_valid (cfg : Config) (req : Request) (product svg_text : str)
    (w : World) :
  valid_submission cfg req product svg_text ->
  exists state,
    save_design cfg req w =
    store_design cfg req (strip product) (PStr svg_text) state w.
Proof.
  intros (Hm & Ho & (d & Hj & Hp & Hs) & Hpn & Hsn & Hlen).
  exists (match assoc (lit "state") d with Some v => v | None => PNone end).
  unfold save_design. rewrite Hm, Ho. cbn [negb]. read_body Hj.
  assert (Hd : or_else (PDict d) (PDict []) = PDict d).
  { unfold or_else. destruct d; [discriminate|reflexivity]. }
  rewrite Hd. unfold get. rewrite Hp, Hs.
  assert (Hpt : or_else (PStr product) (PStr []) = PStr product).
  { unfold or_else. simpl. destruct product; [contradiction|reflexivity]. }
  assert (Hst : or_else (PStr svg_text) (PStr []) = PStr svg_text).
  { unfold or_else. simpl. destruct svg_text; [contradiction|reflexivity]. }
  unfold bind, lift. rewrite Hpt, Hst. cbn [strip_method len_builtin].
  apply nonempty_true in Hpn. rewrite Hpn.
  assert (Ht : truthy (PStr svg_text) = true).
  { simpl. destruct svg_text; [contradiction|reflexivity]. }
  rewrite Ht. cbn [negb orb].
  apply N.ltb_ge in Hlen. rewrite Hlen. reflexivity.
Qed.

(** A body that cannot be read ends the handler. *)
Lemma save_design_unread (cfg : Config) (req : Request) (e : exn)
    (w : World) :
  method req <> OPTIONS ->
  origin_allowed cfg req = true ->
  get_json req = Raise e ->
  save_design cfg req w = (Raise e, w).
Proof.
  intros Hm Ho Hj. unfold save_design. rewrite Ho. cbn [negb].
  destruct (method req); [| |contradiction];
    rewrite Hj; reflexivity.
Qed.

(** Text over the limit, in a body that was read, gets the JSON 413. *)
Lemma save_design_too_large (cfg : Config) (req : Request)
    (d : list (str * value)) (product svg_text : str) (w : World) :
  method req = POST ->
  origin_allowed cfg req = true ->
  get_json req = PDict d ->
  assoc (lit "productId") d = Some (PStr product) ->
  assoc (lit "svg") d = Some (PStr svg_text) ->
  strip product <> [] ->
  (SVG_LIMIT < len svg_text)%N ->
  save_design cfg req w =
  (Ok (with_status 413
         (cors_ok cfg req (jsonify [(lit "error", lit "SVG too large")]))), w).
Proof.
  intros Hm Ho Hj Hp Hs Hpn Hlen.
  unfold save_design. rewrite Hm, Ho. cbn [negb]. read_body Hj.
  assert (Hd : or_else (PDict d) (PDict []) = PDict d).
  { unfold or_else. destruct d; [discriminate|reflexivity]. }
  rewrite Hd. unfold get. rewrite Hp, Hs.
  assert (Hpt : or_else (PStr product) (PStr []) = PStr product).
  { unfold or_else. simpl. destruct product; [contradiction|reflexivity]. }
  assert (Hsn : svg_text <> []).
  { intros ->. apply N.nlt_0_r in Hlen. exact Hlen. }
  assert (Hst : or_else (PStr svg_text) (PStr []) = PStr svg_text).
  { unfold or_else. simpl. destruct svg_text; [contradiction|reflexivity]. }
  unfold bind, lift. rewrite Hpt, Hst. cbn [strip_method len_builtin].
  apply nonempty_true in Hpn. rewrite Hpn.
  assert (Ht : truthy (PStr svg_text) = true).
  { simpl. destruct svg_text; [contradiction|reflexivity]. }
  rewrite Ht. cbn [negb orb].
  apply N.ltb_lt in Hlen. rewrite Hlen. reflexivity.
Qed.

Lemma save_design_paths (cfg : Config) (req : Request) (w : World) :
  save_path cfg req w (save_design cfg req w).
Proof.
  unfold save_design.
  assert (H : forall m, method req = m -> m <> OPTIONS ->
            save_path cfg req w
              ((if negb (origin_allowed cfg req)
                then ret (with_status 403 (jsonify [(lit "error", lit "Origin not allowed")]))
                else
                  parsed <- lift (get_json req) ;;
                  let data := or_else parsed (PDict []) in
                  pid <- lift (get data (lit "productId")) ;;
                  product_id <- lift (strip_method (or_else pid (PStr []))) ;;
                  sv <- lift (get data (lit "svg")) ;;
                  let svg := or_else sv (PStr []) in
                  state <- lift (get data (lit "state")) ;;
                  if negb (nonempty product_id) || negb (truthy svg)
                  then ret (with_status 400
                              (cors_ok cfg req
                                 (jsonify [(lit "error", lit "productId and svg are required")])))
                  else
                    n <- lift (len_builtin svg) ;;
                    if (SVG_LIMIT <? n)%N
                    then ret (with_status 413
                                (cors_ok cfg req (jsonify [(lit "error", lit "SVG too large")])))
                    else store_design cfg req product_id svg state) w)).
  { intros m Hm Hne. rewrite <- Hm in Hne. clear Hm m.
    destruct (origin_allowed cfg req) eqn:Ho; cbn [negb].
    - unfold bind at 1, lift at 1.
      destruct (get_json req) as [parsed|e] eqn:Gj.
      2: { destruct (get_json_raises req e Gj) as (-> & _ & _).
           now apply path_body_too_large. }
      cbv zeta. unfold bind, lift, ret.
      destruct (get _ (lit "productId")) as [pid|e] eqn:G1.
      + destruct (strip_method _) as [product|e] eqn:G2.
        * destruct (get _ (lit "svg")) as [sv|e] eqn:G3.
          -- destruct (get _ (lit "state")) as [state|e] eqn:G4.
             ++ destruct (negb (nonempty product) || negb (truthy _)).
                ** now apply path_required.
                ** destruct (len_builtin _) as [n|e] eqn:G5.
                   --- destruct (SVG_LIMIT <? n)%N.
                       +++ now apply path_too_large.
                       +++ now apply path_store.
                   --- destruct (or_else sv (PStr [])); try discriminate;
                         injection G5 as <-; now apply path_unsized.
             ++ destruct (or_else parsed (PDict [])); try discriminate;
                  injection G4 as <-; now apply path_no_method.
          -- destruct (or_else parsed (PDict [])); try discriminate;
               injection G3 as <-; now apply path_no_method.
        * destruct (or_else pid (PStr [])); try discriminate;
            injection G2 as <-; now apply path_no_method.
      + destruct (or_else parsed (PDict [])); try discriminate;
          injection G1 as <-; now apply path_no_method.
    - now apply path_origin. }
  destruct (method req) eqn:Hm.
  - apply (H GET); [reflexivity|discriminate].
  - apply (H POST); [reflexivity|discriminate].
  - apply path_preflight; [exact Hm|].
    rewrite status_cors_ok. reflexivity.
Qed.

End Submission.

(** ** Sizes of the sample submissions *)

Section SampleSizes.
Import Py Obs App.

Lemma svg_at_limit_len : len Sample.svg_at_limit = 1500000%N.
Proof. apply len_copies. Qed.

Lemma svg_over_limit_len : len Sample.svg_over_limit = 1500001%N.
Proof.
  unfold Sample.svg_over_limit. rewrite len_cons, svg_at_limit_len.
  reflexivity.
Qed.

Lemma svg_of_quotes_len : len Sample.svg_of_quotes = 1500000%N.
Proof. apply len_copies. Qed.

Lemma svg_at_limit_size :
  least_string_size Sample.svg_at_limit = 1500002%N.
Proof.
  unfold Sample.svg_at_limit. rewrite least_string_size_copies. reflexivity.
Qed.

Lemma svg_over_limit_size :
  least_string_size Sample.svg_over_limit = 1500003%N.
Proof.
  unfold Sample.svg_over_limit.
  rewrite (least_string_size_cons "a" Sample.svg_at_limit), svg_at_limit_size.
  reflexivity.
Qed.

Lemma svg_of_quotes_size :
  least_string_size Sample.svg_of_quotes = 3000002%N.
Proof.
  unfold Sample.svg_of_quotes. rewrite least_string_size_copies. reflexivity.
Qed.

(** A submission of a product reference and the text of 1,500,000 or
    1,500,001 letters fits in the body cap; one of the 1,500,000 double
    quotes does not. *)
Lemma at_limit_within (o : option str) (product : str) :
  (least_string_size product <= 100)%N ->
  (content_length
     (Sample.post o (PDict [(lit "productId", PStr product);
                            (lit "svg", PStr Sample.svg_at_limit)]))
   <= MAX_CONTENT_LENGTH)%N.
Proof.
  intros H. unfold Sample.post. cbn [content_length].
  rewrite least_body_size_two_texts, svg_at_limit_size.
  change (least_string_size (lit "productId")) with 11%N.
  change (least_string_size (lit "svg")) with 5%N.
  change MAX_CONTENT_LENGTH with 2097152%N. lia.
Qed.

Lemma over_limit_within (o : option str) (product : str) :
  (least_string_size product <= 100)%N ->
  (content_length
     (Sample.post o (PDict [(lit "productId", PStr product);
                            (lit "svg", PStr Sample.svg_over_limit)]))
   <= MAX_CONTENT_LENGTH)%N.
Proof.
  intros H. unfold Sample.post. cbn [content_length].
  rewrite least_body_size_two_texts, svg_over_limit_size.
  change (least_string_size (lit "productId")) with 11%N.
  change (least_string_size (lit "svg")) with 5%N.
  change MAX_CONTENT_LENGTH with 2097152%N. lia.
Qed.

Lemma quotes_over_cap (o : option str) (product : str) :
  (MAX_CONTENT_LENGTH
   < content_length
       (Sample.post o (PDict [(lit "productId", PStr product);
                              (lit "svg", PStr Sample.svg_of_quotes)])))%N.
Proof.
  unfold Sample.post. cbn [content_length].
  rewrite least_body_size_two_texts, svg_of_quotes_size.
  change MAX_CONTENT_LENGTH with 2097152%N. lia.
Qed.

End SampleSizes.

(** A concrete submission is valid: every condition computes. *)
Ltac valid_by_computation :=
  unfold Obs.valid_submission;
  repeat split;
  first [ reflexivity
        | eexists; repeat split; reflexivity
        | vm_compute; discriminate ].

(** ** Properties of the submission handler *)

Section SubmissionProperties.
Import Py Obs App.

(** C2, as the code has it.  On a valid submission the handler checks at
    most three candidates for a collision and draws a new one after each
    collision, so it generates between one and four codes: [k + 1] of
    them, where the first [k <= 3] candidates are all taken and, when
    [k < 3], candidate [k] is free.  The last candidate goes to the
    commit; after three collisions it goes there unchecked. *)
Theorem collision_retry_draws_up_to_four (cfg : App.Config) (req : App.Request)
    (product svg_text : Py.str) (w : App.World) :
  Obs.valid_submission cfg req product svg_text ->
  exists k state,
    k <= 3
    /\ (forall i, i < k -> Obs.taken w (Obs.candidate w i) = true)
    /\ (k < 3 -> Obs.taken w (Obs.candidate w k) = false)
    /\ Obs.drawn (snd (App.save_design cfg req w)) = Obs.drawn w + 7 * (k + 1)
    /\ App.save_design cfg req w =
       if Obs.taken w (Obs.candidate w k)
       then (Py.Raise Py.IntegrityError, Obs.advance (S k) w)
       else (Py.Ok (App.cors_ok cfg req
                      (App.jsonify [(Py.lit "code", Obs.candidate w k)])),
             Obs.with_row (Obs.advance (S k) w)
               (Obs.new_row w (Obs.candidate w k) (Py.strip product)
                  svg_text state)).
Proof.
  intros Hv. destruct (save_design_valid cfg req product svg_text w Hv)
    as [state Hs].
  destruct (settle_bounds w 3 0) as (B & A & F).
  exists (settle w 3 0), state.
  rewrite Hs, store_design_run. cbv zeta.
  split; [lia|]. split; [intros i Hi; apply A; lia|].
  split; [intros Hk; apply F; lia|].
  split; [|reflexivity].
  destruct (taken w _); unfold drawn, with_row, advance;
    cbn [snd rng Secrets.cursor]; lia.
Qed.

Lemma collision_retry_draws_up_to_four_witness :
  Obs.valid_submission Sample.open_config Sample.mug_request
    (Py.lit "Mug") (Py.lit "<svg/>")
  /\ exists k state,
       k <= 3
       /\ (forall i, i < k ->
             Obs.taken (Sample.world_with "Mug") (Obs.candidate (Sample.world_with "Mug") i) = true)
       /\ (k < 3 ->
             Obs.taken (Sample.world_with "Mug") (Obs.candidate (Sample.world_with "Mug") k) = false)
       /\ Obs.drawn (snd (App.save_design Sample.open_config Sample.mug_request
                            (Sample.world_with "Mug")))
          = Obs.drawn (Sample.world_with "Mug") + 7 * (k + 1)
       /\ App.save_design Sample.open_config Sample.mug_request (Sample.world_with "Mug") =
          if Obs.taken (Sample.world_with "Mug") (Obs.candidate (Sample.world_with "Mug") k)
          then (Py.Raise Py.IntegrityError, Obs.advance (S k) (Sample.world_with "Mug"))
          else (Py.Ok (App.cors_ok Sample.open_config Sample.mug_request
                         (App.jsonify [(Py.lit "code", Obs.candidate (Sample.world_with "Mug") k)])),
                Obs.with_row (Obs.advance (S k) (Sample.world_with "Mug"))
                  (Obs.new_row (Sample.world_with "Mug")
                     (Obs.candidate (Sample.world_with "Mug") k)
                     (Py.strip (Py.lit "Mug")) (Py.lit "<svg/>") state)).
Proof.
  assert (H : Obs.valid_submission Sample.open_config Sample.mug_request
                (Py.lit "Mug") (Py.lit "<svg/>")).
  { valid_by_computation. }
  split; [exact H|].
  exact (collision_retry_draws_up_to_four _ _ _ _ _ H).
Defined.

(** C2, the claim as written, fails: with the first three candidates
    taken the handler generates a fourth code and stores the design
    under it. *)
Lemma four_codes_after_three_collisions :
  exists r w',
    App.save_design Sample.open_config Sample.mug_request (Sample.world_with "Mug")
    = (Py.Ok r, w')
    /\ Obs.valid_submission Sample.open_config Sample.mug_request
         (Py.lit "Mug") (Py.lit "<svg/>")
    /\ Obs.drawn w' = Obs.drawn (Sample.world_with "Mug") + 7 * 4
    /\ ~ Obs.drawn w' <= Obs.drawn (Sample.world_with "Mug") + 7 * 3
    /\ App.body r = App.Json [(Py.lit "code", Py.lit "w")]
    /\ Obs.candidate (Sample.world_with "Mug") 3 = Py.lit "w"
    /\ List.map App.code (App.designs w') = [Py.lit "AAAAAAAAAA"; Py.lit "w"].
Proof.
  eexists. eexists. split; [vm_compute; reflexivity|].
  split.
  { valid_by_computation. }
  repeat split; try (vm_compute; reflexivity).
  vm_compute. lia.
Qed.

Lemma origin_is_iff (o : option str) (allowed : str) :
  origin_is o allowed = true <-> o = Some allowed.
Proof.
  destruct o as [x|]; simpl; [|split; discriminate].
  rewrite str_eqb_eq. split; congruence.
Qed.

Lemma store_design_status (cfg : Config) (req : Request) (product : str)
    (sv state : value) (w w' : World) (r : Response) :
  store_design cfg req product sv state w = (Ok r, w') ->
  status r = 200%N
  /\ exists text,
       sv = PStr text
       /\ body r = Json [(lit "code", candidate w (settle w 3 0))]
       /\ taken w (candidate w (settle w 3 0)) = false
       /\ designs w' =
          designs w ++ [new_row w (candidate w (settle w 3 0)) product text state].
Proof.
  rewrite store_design_run. cbv zeta.
  destruct sv; try discriminate.
  destruct (taken w _) eqn:T; [discriminate|].
  intros H. injection H as <- <-.
  rewrite status_cors_ok, body_cors_ok. split; [reflexivity|].
  eexists. repeat split; reflexivity.
Qed.

Lemma store_design_raise (cfg : Config) (req : Request) (product : str)
    (sv state : value) (w w' : World) (e : exn) :
  store_design cfg req product sv state w = (Raise e, w') ->
  designs w' = designs w.
Proof.
  rewrite store_design_run. cbv zeta.
  destruct sv; try (intros H; injection H as <- <-; reflexivity).
  destruct (taken w _); [|discriminate].
  intros H; injection H as <- <-; reflexivity.
Qed.

(** C6.  With a specific allowed origin configured, a POST whose Origin
    header is absent or differs from it is answered 403 with the body
    [{"error": "Origin not allowed"}]; the answer is the same whatever the
    JSON body and whatever the world, and the world is left as it was (no
    code drawn, no row written).  A POST whose Origin is the configured
    one is never answered 403. *)
Theorem origin_mismatch_rejected_first (cfg : App.Config) (req : App.Request)
    (w : App.World) :
  App.method req = App.POST ->
  App.ALLOWED_ORIGIN cfg <> Py.lit "*" ->
  (App.origin req <> Some (App.ALLOWED_ORIGIN cfg) ->
     App.save_design cfg req w = (Py.Ok Obs.origin_refused, w)
     /\ (forall v, App.save_design cfg (Obs.with_json req v) w
                   = (Py.Ok Obs.origin_refused, w))
     /\ App.status Obs.origin_refused = 403%N
     /\ App.body Obs.origin_refused
        = App.Json [(Py.lit "error", Py.lit "Origin not allowed")])
  /\ (App.origin req = Some (App.ALLOWED_ORIGIN cfg) ->
      forall r w', App.save_design cfg req w = (Py.Ok r, w') ->
                   App.status r <> 403%N).
Proof.
  intros Hm Hne. apply str_eqb_neq in Hne. split.
  - intros Ho.
    assert (Hf : origin_is (origin req) (ALLOWED_ORIGIN cfg) = false).
    { destruct (origin_is _ _) eqn:E; [|reflexivity].
      apply origin_is_iff in E. contradiction. }
    unfold save_design, origin_allowed, with_json.
    cbn [method origin]. rewrite Hm, Hne, Hf. cbn [orb negb].
    repeat split.
  - intros Ho r w' Hs.
    assert (Ha : origin_allowed cfg req = true).
    { unfold origin_allowed. rewrite Ho. cbn [origin_is].
      rewrite str_eqb_refl. apply orb_true_r. }
    pose proof (save_design_paths cfg req w) as P.
    rewrite Hs in P.
    inversion P; subst; try congruence;
      try (cbn [status with_status]; discriminate).
    match goal with
      | H : store_design _ _ _ _ _ _ = _ |- _ =>
          apply store_design_status in H as [-> _]
    end. discriminate.
Qed.

Lemma origin_mismatch_rejected_first_witness :
  App.save_design Sample.strict_config
    (Sample.post Sample.evil_origin (Sample.submission "Mug" (Py.PStr (Py.lit "<svg/>"))))
    Sample.empty_world
  = (Py.Ok Obs.origin_refused, Sample.empty_world)
  /\ App.save_design Sample.strict_config
       (Sample.post None (Sample.submission "Mug" (Py.PStr (Py.lit "<svg/>"))))
       Sample.empty_world
     = (Py.Ok Obs.origin_refused, Sample.empty_world)
  /\ match fst (App.save_design Sample.strict_config
                  (Sample.post Sample.example_origin
                     (Sample.submission "Mug" (Py.PStr (Py.lit "<svg/>"))))
                  Sample.empty_world) with
     | Py.Ok r => App.status r <> 403%N
     | Py.Raise _ => False
     end.
Proof.
  assert (Hs : App.ALLOWED_ORIGIN Sample.strict_config <> Py.lit "*")
    by (vm_compute; discriminate).
  split; [|split].
  - apply (proj1 (origin_mismatch_rejected_first Sample.strict_config
                    (Sample.post Sample.evil_origin
                       (Sample.submission "Mug" (Py.PStr (Py.lit "<svg/>"))))
                    Sample.empty_world eq_refl Hs)).
    vm_compute. discriminate.
  - apply (proj1 (origin_mismatch_rejected_first Sample.strict_config
                    (Sample.post None
                       (Sample.submission "Mug" (Py.PStr (Py.lit "<svg/>"))))
                    Sample.empty_world eq_refl Hs)).
    vm_compute. discriminate.
  - pose proof (proj2 (origin_mismatch_rejected_first Sample.strict_config
                         (Sample.post Sample.example_origin
                            (Sample.submission "Mug" (Py.PStr (Py.lit "<svg/>"))))
                         Sample.empty_world eq_refl Hs) eq_refl) as H.
    destruct (App.save_design _ _ _) as [[r|e] w'] eqn:E; cbn [fst].
    + apply (H r w' eq_refl).
    + vm_compute in E. discriminate.
Defined.


(** C8, as the code has it.  For a JSON submission that is otherwise
    valid: when its body is within [MAX_CONTENT_LENGTH] (two mebibytes)
    and its SVG text has exactly 1,500,000 characters, it passes the
    size check, the handler goes on to store it, every response it can
    return is 200, and it returns 200 with the code unless the unique
    index refuses the last candidate; when its body is within the cap
    and the SVG text has exactly 1,500,001 characters, the answer is 413
    with the body [{"error": "SVG too large"}] and nothing else happens.
    A body over the cap never reaches the size check: reading it raises
    [RequestEntityTooLarge], which the framework answers with its own
    413, and nothing is stored, whatever the length of the SVG text. *)
Theorem svg_size_boundary (cfg : App.Config) (req : App.Request)
    (product svg_text : Py.str) (w : App.World) :
  App.method req = App.POST ->
  App.origin_allowed cfg req = true ->
  App.is_json req = true ->
  (exists d, App.json req = Py.PDict d
      /\ Py.assoc (Py.lit "productId") d = Some (Py.PStr product)
      /\ Py.assoc (Py.lit "svg") d = Some (Py.PStr svg_text)) ->
  Py.strip product <> [] ->
  ((App.content_length req <= App.MAX_CONTENT_LENGTH)%N ->
     (Py.len svg_text = 1500000%N ->
        (forall r w', App.save_design cfg req w = (Py.Ok r, w') ->
                      App.status r = 200%N)
        /\ (forall e w', App.save_design cfg req w = (Py.Raise e, w') ->
                         e = Py.IntegrityError)
        /\ (Obs.taken w (Obs.candidate w (Obs.settle w 3 0)) = false ->
            exists r w',
              App.save_design cfg req w = (Py.Ok r, w')
              /\ App.status r = 200%N
              /\ App.body r =
                 App.Json [(Py.lit "code", Obs.candidate w (Obs.settle w 3 0))]))
     /\ (Py.len svg_text = 1500001%N ->
         exists r,
           App.save_design cfg req w = (Py.Ok r, w)
           /\ App.status r = 413%N
           /\ App.body r = App.Json [(Py.lit "error", Py.lit "SVG too large")]))
  /\ ((App.MAX_CONTENT_LENGTH < App.content_length req)%N ->
      App.save_design cfg req w = (Py.Raise Py.RequestEntityTooLarge, w)).
Proof.
  intros Hm Ho Hct (d & Hj & Hp & Hs) Hpn. split.
  2: { intros Hover. unfold save_design. rewrite Hm, Ho. cbn [negb].
       rewrite (get_json_over req Hct Hover). reflexivity. }
  intros Hcap.
  assert (Hg : get_json req = returned (PDict d)).
  { rewrite (get_json_within req Hct Hcap), Hj. reflexivity. }
  split.
  - intros Hlen.
    assert (Hv : valid_submission cfg req product svg_text).
    { unfold valid_submission. repeat split; auto.
      - exists d. auto.
      - intros ->. discriminate.
      - rewrite Hlen. unfold SVG_LIMIT. lia. }
    destruct (save_design_valid cfg req product svg_text w Hv) as [state Hsd].
    rewrite Hsd, store_design_run. cbv zeta.
    destruct (taken w _) eqn:T.
    + repeat split; try discriminate.
      intros e w' H. injection H as <- _. reflexivity.
    + repeat split.
      * intros r w' H. injection H as <- _. apply status_cors_ok.
      * discriminate.
      * intros _. eexists. eexists. split; [reflexivity|].
        rewrite status_cors_ok, body_cors_ok. split; reflexivity.
  - intros Hlen. eexists. unfold save_design. rewrite Hm, Ho.
    cbn [negb]. read_body Hg.
    assert (Hd : or_else (PDict d) (PDict []) = PDict d).
    { unfold or_else. destruct d; [discriminate|reflexivity]. }
    rewrite Hd. unfold get. rewrite Hp, Hs.
    assert (Hpt : or_else (PStr product) (PStr []) = PStr product).
    { unfold or_else. simpl. destruct product; [contradiction|reflexivity]. }
    assert (Hsn : svg_text <> []) by (intros ->; discriminate).
    assert (Hst : or_else (PStr svg_text) (PStr []) = PStr svg_text).
    { unfold or_else. simpl. destruct svg_text; [contradiction|reflexivity]. }
    unfold bind, lift. rewrite Hpt, Hst. cbn [strip_method len_builtin].
    apply nonempty_true in Hpn. rewrite Hpn.
    assert (Ht : truthy (PStr svg_text) = true).
    { simpl. destruct svg_text; [contradiction|reflexivity]. }
    rewrite Ht. cbn [negb orb]. rewrite Hlen.
    change (SVG_LIMIT <? 1500001)%N with true. cbv iota. unfold ret.
    split; [reflexivity|]. split; [reflexivity|]. apply body_cors_ok.
Qed.

Lemma svg_size_boundary_witness :
  ((App.content_length Sample.limit_request <= App.MAX_CONTENT_LENGTH)%N
   /\ Py.len Sample.svg_at_limit = 1500000%N
   /\ exists r w',
        App.save_design Sample.open_config Sample.limit_request Sample.empty_world
        = (Py.Ok r, w')
        /\ App.status r = 200%N
        /\ App.body r =
           App.Json [(Py.lit "code",
                      Obs.candidate Sample.empty_world
                        (Obs.settle Sample.empty_world 3 0))])
  /\ ((App.content_length Sample.over_limit_request <= App.MAX_CONTENT_LENGTH)%N
      /\ Py.len Sample.svg_over_limit = 1500001%N
      /\ exists r,
           App.save_design Sample.open_config Sample.over_limit_request
             Sample.empty_world
           = (Py.Ok r, Sample.empty_world)
           /\ App.status r = 413%N
           /\ App.body r = App.Json [(Py.lit "error", Py.lit "SVG too large")])
  /\ ((App.MAX_CONTENT_LENGTH < App.content_length Sample.quotes_request)%N
      /\ App.save_design Sample.open_config Sample.quotes_request
           Sample.empty_world
         = (Py.Raise Py.RequestEntityTooLarge, Sample.empty_world)).
Proof.
  assert (P : (Obs.least_string_size (Py.lit "Mug") <= 100)%N)
    by (vm_compute; discriminate).
  pose proof svg_at_limit_len as L0.
  pose proof svg_over_limit_len as L1.
  pose proof (at_limit_within None (Py.lit "Mug") P :
                (App.content_length Sample.limit_request
                 <= App.MAX_CONTENT_LENGTH)%N) as K0.
  pose proof (over_limit_within None (Py.lit "Mug") P :
                (App.content_length Sample.over_limit_request
                 <= App.MAX_CONTENT_LENGTH)%N) as K1.
  pose proof (quotes_over_cap None (Py.lit "Mug") :
                (App.MAX_CONTENT_LENGTH
                 < App.content_length Sample.quotes_request)%N) as K2.
  split; [|split]; (split; [assumption|]).
  - split; [assumption|].
    destruct (svg_size_boundary Sample.open_config Sample.limit_request
                (Py.lit "Mug") Sample.svg_at_limit Sample.empty_world)
      as [H _].
    + reflexivity.
    + reflexivity.
    + reflexivity.
    + eexists. repeat split; reflexivity.
    + vm_compute. discriminate.
    + destruct (proj1 (H K0) L0) as (_ & _ & H3). apply H3. reflexivity.
  - split; [assumption|].
    destruct (svg_size_boundary Sample.open_config Sample.over_limit_request
                (Py.lit "Mug") Sample.svg_over_limit Sample.empty_world)
      as [H _].
    + reflexivity.
    + reflexivity.
    + reflexivity.
    + eexists. repeat split; reflexivity.
    + vm_compute. discriminate.
    + exact (proj2 (H K1) L1).
  - destruct (svg_size_boundary Sample.open_config Sample.quotes_request
                (Py.lit "Mug") Sample.svg_of_quotes Sample.empty_world)
      as [_ H].
    + reflexivity.
    + reflexivity.
    + reflexivity.
    + eexists. repeat split; reflexivity.
    + vm_compute. discriminate.
    + exact (H K2).
Defined.

(** C8, the claim as written, fails: SVG text of exactly 1,500,000
    double quotes takes at least two bytes a character in a JSON body,
    so every body that carries it is over [MAX_CONTENT_LENGTH].  The
    submission is otherwise valid (a POST of JSON from an allowed origin
    with the product reference [Mug]), but it does not succeed: it ends
    in [RequestEntityTooLarge] before the size check and nothing is
    stored. *)
Lemma svg_at_limit_over_body_cap :
  App.method Sample.quotes_request = App.POST
  /\ App.origin_allowed Sample.open_config Sample.quotes_request = true
  /\ App.is_json Sample.quotes_request = true
  /\ App.json Sample.quotes_request
     = Py.PDict [(Py.lit "productId", Py.PStr (Py.lit "Mug"));
                 (Py.lit "svg", Py.PStr Sample.svg_of_quotes)]
  /\ Py.len Sample.svg_of_quotes = 1500000%N
  /\ Obs.least_string_size Sample.svg_of_quotes = 3000002%N
  /\ (App.MAX_CONTENT_LENGTH < App.content_length Sample.quotes_request)%N
  /\ App.MAX_CONTENT_LENGTH = 2097152%N
  /\ App.save_design Sample.open_config Sample.quotes_request Sample.empty_world
     = (Py.Raise Py.RequestEntityTooLarge, Sample.empty_world)
  /\ App.designs Sample.empty_world = [].
Proof.
  split; [reflexivity|].
  split; [reflexivity|].
  split; [reflexivity|].
  split; [reflexivity|].
  split; [exact svg_of_quotes_len|].
  split; [exact svg_of_quotes_size|].
  split; [exact (quotes_over_cap None (Py.lit "Mug"))|].
  split; [reflexivity|].
  split; [|reflexivity].
  apply save_design_unread; [discriminate|reflexivity|].
  apply get_json_over; [reflexivity|].
  exact (quotes_over_cap None (Py.lit "Mug")).
Qed.

(** C10, as the code has it.  When the submission passes the origin
    check and carries a product reference that is text and not blank, and
    its [svg] is truthy but has no length (a number other than zero, or
    [true]), [len] raises [TypeError] out of the handler: no response is
    built, no code is drawn and no row is written. *)
Theorem unsized_svg_raises_type_error (cfg : App.Config) (req : App.Request)
    (d : list (Py.str * Py.value)) (product : Py.str) (sv : Py.value)
    (w : App.World) :
  App.method req = App.POST ->
  App.origin_allowed cfg req = true ->
  App.get_json req = Py.PDict d ->
  Py.assoc (Py.lit "productId") d = Some (Py.PStr product) ->
  Py.strip product <> [] ->
  Py.assoc (Py.lit "svg") d = Some sv ->
  Py.truthy sv = true ->
  match sv with
  | Py.PInt _ | Py.PFloat _ | Py.PBool _ => True
  | _ => False
  end ->
  App.save_design cfg req w = (Py.Raise Py.TypeError, w).
Proof.
  intros Hm Ho Hj Hp Hpn Hs Ht Hk.
  unfold save_design. rewrite Hm, Ho. cbn [negb]. read_body Hj.
  assert (Hd : or_else (PDict d) (PDict []) = PDict d).
  { unfold or_else. destruct d; [discriminate|reflexivity]. }
  rewrite Hd. unfold get. rewrite Hp, Hs.
  assert (Hpt : or_else (PStr product) (PStr []) = PStr product).
  { unfold or_else. simpl. destruct product; [contradiction|reflexivity]. }
  unfold bind, lift. rewrite Hpt. cbn [strip_method].
  apply nonempty_true in Hpn. rewrite Hpn.
  assert (Hst : or_else sv (PStr []) = sv) by (unfold or_else; now rewrite Ht).
  rewrite Hst, Ht. cbn [negb orb].
  destruct sv; try contradiction; reflexivity.
Qed.

Lemma unsized_svg_raises_type_error_witness :
  App.save_design Sample.open_config
    (Sample.post None (Sample.submission "Mug" (Py.PInt 5))) Sample.empty_world
  = (Py.Raise Py.TypeError, Sample.empty_world).
Proof.
  apply (unsized_svg_raises_type_error Sample.open_config
           (Sample.post None (Sample.submission "Mug" (Py.PInt 5)))
           [(Py.lit "productId", Py.PStr (Py.lit "Mug")); (Py.lit "svg", Py.PInt 5)]
           (Py.lit "Mug") (Py.PInt 5) Sample.empty_world);
    [reflexivity | reflexivity | reflexivity | reflexivity
    | vm_compute; discriminate | reflexivity | reflexivity | exact I].
Defined.

(** C10, the claim as written, fails twice.  An [svg] that is a number is
    answered 400 when the product reference is missing: the presence
    check comes before [len].  And [len] of a list is defined: with
    [svg = [1]] the size check passes and the handler goes on to draw a
    code. *)
Lemma truthy_non_string_svg_without_type_error :
  (exists r,
     App.save_design Sample.open_config
       (Sample.post None (Py.PDict [(Py.lit "svg", Py.PInt 5)])) Sample.empty_world
     = (Py.Ok r, Sample.empty_world)
     /\ App.status r = 400%N
     /\ App.body r = App.Json [(Py.lit "error", Py.lit "productId and svg are required")])
  /\ Py.truthy (Py.PList [Py.PInt 1]) = true
  /\ Py.len_builtin (Py.PList [Py.PInt 1]) = Py.Ok 1%N
  /\ fst (App.save_design Sample.open_config
            (Sample.post None (Sample.submission "Mug" (Py.PList [Py.PInt 1])))
            Sample.empty_world)
     <> Py.Raise Py.TypeError
  /\ Obs.drawn (snd (App.save_design Sample.open_config
                       (Sample.post None (Sample.submission "Mug" (Py.PList [Py.PInt 1])))
                       Sample.empty_world))
     = 7.
Proof.
  split.
  - eexists. split; [vm_compute; reflexivity|]. split; reflexivity.
  - repeat split; try reflexivity. vm_compute. discriminate.
Qed.

End SubmissionProperties.

(** ** Round trips of the codecs *)

Section Codecs.
Import Py Obs Base64.

Lemma same_sextet_eq (c : ascii) (s : N) :
  same_sextet c s = true -> sextet_of_char c = Some s.
Proof.
  unfold same_sextet. destruct (sextet_of_char c); [|discriminate].
  intros H. apply N.eqb_eq in H. congruence.
Qed.

Lemma sextet0_back (a : byte) :
  sextet_of_char (char_of_sextet (sextet0 (Byte.to_N a))) = Some (sextet0 (Byte.to_N a)).
Proof.
  apply same_sextet_eq. revert a. by_bytes.
Qed.

Lemma sextet1_back (a b : byte) :
  sextet_of_char (char_of_sextet (sextet1 (Byte.to_N a) (Byte.to_N b)))
  = Some (sextet1 (Byte.to_N a) (Byte.to_N b)).
Proof.
  apply same_sextet_eq. revert a b. by_byte_pairs.
Qed.

Lemma sextet2_back (a b : byte) :
  sextet_of_char (char_of_sextet (sextet2 (Byte.to_N a) (Byte.to_N b)))
  = Some (sextet2 (Byte.to_N a) (Byte.to_N b)).
Proof.
  apply same_sextet_eq. revert a b. by_byte_pairs.
Qed.

Lemma sextet3_back (a : byte) :
  sextet_of_char (char_of_sextet (sextet3 (Byte.to_N a))) = Some (sextet3 (Byte.to_N a)).
Proof.
  apply same_sextet_eq. revert a. by_bytes.
Qed.

Lemma octet0_back (a b : byte) :
  octet0 (sextet0 (Byte.to_N a)) (sextet1 (Byte.to_N a) (Byte.to_N b)) = a.
Proof.
  apply Byte.byte_dec_bl. revert a b. by_byte_pairs.
Qed.

Lemma octet2_back (b c : byte) :
  octet2 (sextet2 (Byte.to_N b) (Byte.to_N c)) (sextet3 (Byte.to_N c)) = c.
Proof.
  apply Byte.byte_dec_bl. revert b c. by_byte_pairs.
Qed.

(** The middle byte is spread over two groups that also hold bits of its
    neighbours; those bits are masked or shifted away. *)
Lemma octet1_back (a b c : byte) :
  octet1 (sextet1 (Byte.to_N a) (Byte.to_N b)) (sextet2 (Byte.to_N b) (Byte.to_N c)) = b.
Proof.
  unfold octet1.
  assert (H1 : N.land (sextet1 (Byte.to_N a) (Byte.to_N b)) 15 = N.shiftr (Byte.to_N b) 4).
  { apply N.eqb_eq. revert a b. by_byte_pairs. }
  assert (H2 : N.shiftr (sextet2 (Byte.to_N b) (Byte.to_N c)) 2 = N.land (Byte.to_N b) 15).
  { clear H1. apply N.eqb_eq. revert b c. by_byte_pairs. }
  rewrite H1, H2. clear H1 H2. apply Byte.byte_dec_bl. revert b. by_bytes.
Qed.

Lemma char_not_pad (c : ascii) : in_alphabet c = true -> Ascii.eqb c pad = false.
Proof. apply in_alphabet_not_pad. Qed.

(** The text [b64encode] makes decodes to the bytes it was made of. *)
Lemma b64decode_b64encode (data : bytes) :
  b64decode (b64encode data) = Some data.
Proof.
  assert (H : forall n (d : bytes), List.length d < n ->
              b64decode (b64encode d) = Some d).
  { induction n as [|n IH]; intros d Hn; [lia|].
    destruct d as [|b0 [|b1 [|b2 rest]]].
    - reflexivity.
    - cbn [b64encode b64decode].
      change 0%N with (Byte.to_N x00).
      rewrite sextet0_back, sextet1_back.
      change (Ascii.eqb pad pad) with true. cbv iota.
      rewrite octet0_back. reflexivity.
    - cbn [b64encode b64decode].
      rewrite sextet0_back, sextet1_back.
      change (Ascii.eqb pad pad) with true. cbv iota.
      change 0%N with (Byte.to_N x00).
      rewrite (char_not_pad _ (third_char_in_alphabet b1 x00)).
      rewrite sextet2_back, octet0_back, octet1_back. reflexivity.
    - cbn [b64encode b64decode].
      rewrite sextet0_back, sextet1_back.
      rewrite (char_not_pad _ (fourth_char_in_alphabet b2)).
      rewrite sextet2_back, sextet3_back.
      rewrite IH by (simpl in Hn; lia).
      rewrite octet0_back, octet1_back, octet2_back. reflexivity. }
  apply (H (S (List.length data))). lia.
Qed.

Lemma utf8_decode_encode_char (c : ascii) (rest : bytes) :
  Utf8.decode (Utf8.encode_char c ++ rest)
  = option_map (cons c) (Utf8.decode rest).
Proof.
  destruct c as [[|] [|] [|] [|] [|] [|] [|] [|]]; reflexivity.
Qed.

(** Decoding the UTF-8 encoding of a text gives the text back. *)
Lemma utf8_decode_encode (s : str) : Utf8.decode (Utf8.encode s) = Some s.
Proof.
  induction s as [|c s IH]; [reflexivity|].
  unfold Utf8.encode in *. cbn [flat_map].
  rewrite utf8_decode_encode_char, IH. reflexivity.
Qed.

End Codecs.

(** ** Trimming *)

Section Trimming.
Import Py.

Lemma dropwhile_split (p : ascii -> bool) (s : str) :
  exists l, s = l ++ dropwhile p s /\ forallb p l = true.
Proof.
  induction s as [|c s (l & E & A)]; simpl.
  - exists []. split; reflexivity.
  - destruct (p c) eqn:Pc.
    + exists (c :: l). simpl. rewrite Pc, A. split; [congruence|reflexivity].
    + exists []. split; reflexivity.
Qed.

Lemma dropwhile_head (p : ascii -> bool) (s t : str) (c : ascii) :
  dropwhile p s = c :: t -> p c = false.
Proof.
  induction s as [|x s IH]; simpl; [discriminate|].
  destruct (p x) eqn:Px; [exact IH|].
  intros H. injection H as <- _. exact Px.
Qed.

Lemma forallb_rev (p : ascii -> bool) (l : str) :
  forallb p l = true -> forallb p (rev l) = true.
Proof.
  rewrite !forallb_forall. intros H x Hx. apply H, in_rev, Hx.
Qed.

(** [strip] cuts a run of stripped characters off each end. *)
Lemma strip_by_split (p : ascii -> bool) (s : str) :
  exists l r,
    s = l ++ strip_by p s ++ r /\ forallb p l = true /\ forallb p r = true.
Proof.
  unfold strip_by, rstrip_by, lstrip_by.
  destruct (dropwhile_split p s) as (l & El & Al).
  destruct (dropwhile_split p (rev (dropwhile p s))) as (r & Er & Ar).
  exists l, (rev r). split; [|split; [exact Al|apply forallb_rev, Ar]].
  rewrite <- rev_app_distr, <- Er, rev_involutive. exact El.
Qed.

(** What [strip] leaves neither starts nor ends with a stripped
    character. *)
Lemma strip_by_ends (p : ascii -> bool) (s : str) :
  (forall a t, strip_by p s = a :: t -> p a = false)
  /\ (forall t b, strip_by p s = t ++ [b] -> p b = false).
Proof.
  unfold strip_by, rstrip_by, lstrip_by. split.
  - intros a t H.
    destruct (dropwhile_split p (rev (dropwhile p s))) as (r & Er & _).
    assert (E : dropwhile p s = (a :: t) ++ rev r).
    { rewrite <- H, <- rev_app_distr, <- Er, rev_involutive. reflexivity. }
    simpl in E. eapply dropwhile_head, E.
  - intros t b H.
    assert (E : dropwhile p (rev (dropwhile p s)) = b :: rev t).
    { rewrite <- (rev_involutive (dropwhile p (rev (dropwhile p s)))), H.
      rewrite rev_app_distr. reflexivity. }
    eapply dropwhile_head, E.
Qed.

Lemma strip_by_nonempty (p : ascii -> bool) (s : str) (x : ascii) :
  In x s -> p x = false -> strip_by p s <> [].
Proof.
  intros Hin Px E.
  destruct (strip_by_split p s) as (l & r & Es & Al & Ar).
  rewrite E in Es. simpl in Es. rewrite Es in Hin.
  apply in_app_or in Hin.
  rewrite forallb_forall in Al, Ar.
  destruct Hin as [Hin|Hin]; [apply Al in Hin|apply Ar in Hin]; congruence.
Qed.

Lemma nonempty_ends {A} (l : list A) :
  l <> [] -> (exists a t, l = a :: t) /\ (exists t b, l = t ++ [b]).
Proof.
  intros H. split.
  - destruct l as [|a t]; [contradiction|]. eauto.
  - destruct (exists_last H) as (t & b & E). eauto.
Qed.

End Trimming.

(** ** The retrieval handler *)

Section Retrieval.
Import Py Obs App.

Lemma view_design_open (cfg : Config) (req : Request) (c : str) (w : World) :
  gate_open cfg req -> view_design cfg req c w = render_design c w.
Proof.
  unfold view_design, require_basic_auth.
  intros [Hu|[Hp|Ha]].
  - rewrite Hu. reflexivity.
  - rewrite Hp. destruct (nonempty (ADMIN_USER cfg)); reflexivity.
  - rewrite Ha, !str_eqb_refl.
    destruct (nonempty (ADMIN_USER cfg)), (nonempty (ADMIN_PASS cfg));
      reflexivity.
Qed.

Lemma view_design_closed (cfg : Config) (req : Request) (c : str) (w : World) :
  ADMIN_USER cfg <> [] -> ADMIN_PASS cfg <> [] ->
  authorization req <> Some (ADMIN_USER cfg, ADMIN_PASS cfg) ->
  view_design cfg req c w = (Ok challenge, w).
Proof.
  intros Hu Hp Ha. apply nonempty_true in Hu, Hp.
  unfold view_design, require_basic_auth. rewrite Hu, Hp. cbn [andb].
  destruct (authorization req) as [[u p]|]; [|reflexivity].
  destruct (str_eqb u (ADMIN_USER cfg)) eqn:Eu;
    destruct (str_eqb p (ADMIN_PASS cfg)) eqn:Ep; try reflexivity.
  apply str_eqb_eq in Eu, Ep. subst. contradiction.
Qed.

Lemma render_design_status (c : str) (w w' : World) (r : Response) :
  render_design c w = (Ok r, w') ->
  w' = w /\ (status r = 200%N \/ status r = 404%N).
Proof.
  unfold render_design, bind, query_first, ret.
  destruct (find _ _); intros H; injection H as <- <-; auto.
Qed.

Lemma render_design_found (c : str) (d : Design) (w : World) :
  find (fun r => str_eqb (code r) c) (designs w) = Some d ->
  render_design c w = (Ok (make_response (html c d) 200), w).
Proof.
  intros H. unfold render_design, bind, query_first, ret. rewrite H.
  reflexivity.
Qed.

(** C5.  With both administrator credentials configured, a request
    without credentials, or with credentials that are not exactly the
    configured pair, is answered 401 with a [WWW-Authenticate: Basic]
    challenge and the fixed text; a request with exactly the configured
    pair goes on to the lookup.  With either credential left empty every
    request goes on to the lookup.  The lookup never answers 401. *)
Theorem basic_auth_gate (cfg : App.Config) (req : App.Request) (c : Py.str)
    (w : App.World) :
  (App.ADMIN_USER cfg <> [] -> App.ADMIN_PASS cfg <> [] ->
     (App.authorization req <> Some (App.ADMIN_USER cfg, App.ADMIN_PASS cfg) ->
        App.view_design cfg req c w = (Py.Ok App.challenge, w))
     /\ (App.authorization req = Some (App.ADMIN_USER cfg, App.ADMIN_PASS cfg) ->
         App.view_design cfg req c w = App.render_design c w))
  /\ (App.ADMIN_USER cfg = [] \/ App.ADMIN_PASS cfg = [] ->
      App.view_design cfg req c w = App.render_design c w)
  /\ (forall r w', App.render_design c w = (Py.Ok r, w') -> App.status r <> 401%N)
  /\ (forall e w', App.render_design c w <> (Py.Raise e, w'))
  /\ App.status App.challenge = 401%N
  /\ App.header (Py.lit "WWW-Authenticate") (App.headers App.challenge)
     = Some (Py.lit "Basic realm=" ++ [App.quote] ++ Py.lit "Designs" ++ [App.quote])
  /\ App.body App.challenge = App.Text (Py.lit "Authentication required").
Proof.
  split; [|split; [|split; [|split]]].
  - intros Hu Hp. split.
    + apply view_design_closed; assumption.
    + intros Ha. apply view_design_open. right. right. exact Ha.
  - intros [H|H]; apply view_design_open; [left|right; left]; exact H.
  - intros r w' H. apply render_design_status in H as [_ [-> | ->]];
      discriminate.
  - intros e w'. unfold render_design, bind, query_first, ret.
    destruct (find _ _); discriminate.
  - repeat split.
Qed.

Lemma basic_auth_gate_witness :
  App.view_design Sample.strict_config (Sample.browse None) Sample.zero_code
    (Sample.world_with "Mug")
  = (Py.Ok App.challenge, Sample.world_with "Mug")
  /\ App.view_design Sample.strict_config (Sample.browse Sample.wrong_login)
       Sample.zero_code (Sample.world_with "Mug")
     = (Py.Ok App.challenge, Sample.world_with "Mug")
  /\ App.view_design Sample.strict_config (Sample.browse Sample.admin_login)
       Sample.zero_code (Sample.world_with "Mug")
     = App.render_design Sample.zero_code (Sample.world_with "Mug")
  /\ App.view_design Sample.open_config (Sample.browse None)
       Sample.zero_code (Sample.world_with "Mug")
     = App.render_design Sample.zero_code (Sample.world_with "Mug").
Proof.
  assert (Hu : App.ADMIN_USER Sample.strict_config <> [])
    by (vm_compute; discriminate).
  assert (Hp : App.ADMIN_PASS Sample.strict_config <> [])
    by (vm_compute; discriminate).
  split; [|split; [|split]].
  - apply (proj1 (proj1 (basic_auth_gate Sample.strict_config
                           (Sample.browse None) Sample.zero_code
                           (Sample.world_with "Mug")) Hu Hp)).
    vm_compute. discriminate.
  - apply (proj1 (proj1 (basic_auth_gate Sample.strict_config
                           (Sample.browse Sample.wrong_login) Sample.zero_code
                           (Sample.world_with "Mug")) Hu Hp)).
    vm_compute. discriminate.
  - apply (proj2 (proj1 (basic_auth_gate Sample.strict_config
                           (Sample.browse Sample.admin_login) Sample.zero_code
                           (Sample.world_with "Mug")) Hu Hp)).
    reflexivity.
  - apply (proj1 (proj2 (basic_auth_gate Sample.open_config
                           (Sample.browse None) Sample.zero_code
                           (Sample.world_with "Mug")))).
    left. reflexivity.
Defined.

Lemma b64_char_not_markup (ch : ascii) :
  b64_char ch = true -> markup_char ch = false.
Proof.
  intros H.
  assert (G : negb (b64_char ch) || negb (markup_char ch) = true).
  { clear H. revert ch. by_chars. }
  rewrite H in G. simpl in G. destruct (markup_char ch); [discriminate|reflexivity].
Qed.

Lemma with_svg_same (d : Design) : with_svg d (svg d) = d.
Proof. destruct d; reflexivity. Qed.

(** C3, as the code has it.  The page of a stored design carries the
    product reference as it is stored, with no escaping, in the line
    that starts with [Product:].  The SVG text enters the page only as
    the base64 payload of the data URL, once in the [src] of the image
    element and once in the [href] of the download link: the rest of the
    page does not depend on it, and the payload holds none of the
    characters [<], [>], [&] or a quote. *)
Theorem page_shows_product_raw_and_svg_as_data_uri (cfg : App.Config)
    (req : App.Request) (c : Py.str) (design : App.Design) (w : App.World) :
  Obs.gate_open cfg req ->
  find (fun r => Py.str_eqb (App.code r) c) (App.designs w) = Some design ->
  exists page,
    App.view_design cfg req c w = (Py.Ok (App.make_response page 200), w)
    /\ (exists pre post,
          page = pre ++ Py.lit "<div class='meta'>Product: "
                 ++ App.product_id design ++ App.html_to_created ++ post)
    /\ (exists before middle after,
          forall text,
            App.html c (Obs.with_svg design text) =
            before ++ Py.lit "<img src='data:image/svg+xml;base64,"
            ++ Base64.b64encode (Utf8.encode text)
            ++ Py.lit "' alt='SVG preview'" ++ middle
            ++ Py.lit "href='data:image/svg+xml;base64,"
            ++ Base64.b64encode (Utf8.encode text)
            ++ Py.lit "' download='" ++ after)
    /\ page = App.html c (Obs.with_svg design (App.svg design))
    /\ Forall (fun ch => Obs.markup_char ch = false)
         (Base64.b64encode (Utf8.encode (App.svg design))).
Proof.
  intros Hg Hf. exists (html c design).
  split; [rewrite view_design_open by exact Hg; apply render_design_found, Hf|].
  split; [|split; [|split]].
  - exists (html_to_title ++ c ++ html_to_heading ++ c ++ line "</h2>" ++ lit "      ").
    eexists. unfold html, html_with. rewrite <- !app_assoc. reflexivity.
  - exists (html_to_title ++ c ++ html_to_heading ++ c ++ html_to_product
            ++ product_id design ++ html_to_created
            ++ strftime (created_at design) ++ line " UTC</div>"
            ++ line "      <div class='preview'>" ++ lit "        ").
    exists (line " style='max-width:100%; height:auto; display:block;'>"
            ++ line "      </div>" ++ line "      <div class='actions'>"
            ++ lit "        <a class='btn' ").
    exists (safe_name (product_id design) ++ lit "-" ++ c ++ html_to_end).
    intros text. unfold html, html_with, svg_data_url.
    cbn [with_svg product_id svg created_at].
    rewrite <- !app_assoc. reflexivity.
  - rewrite with_svg_same. reflexivity.
  - eapply Forall_impl; [|apply b64encode_chars].
    intros ch. apply b64_char_not_markup.
Qed.

Lemma page_shows_product_raw_and_svg_as_data_uri_witness :
  exists page,
    App.view_design Sample.open_config (Sample.browse None) Sample.zero_code
      (Sample.world_with "Mug")
    = (Py.Ok (App.make_response page 200), Sample.world_with "Mug")
    /\ Obs.occurs (Py.lit "<div class='meta'>Product: Mug ") page = true
    /\ Obs.occurs (Py.lit "<img src='data:image/svg+xml;base64,PHN2Zy8+' alt=") page = true.
Proof.
  destruct (page_shows_product_raw_and_svg_as_data_uri Sample.open_config
              (Sample.browse None) Sample.zero_code
              (Sample.row "AAAAAAAAAA" "Mug" "<svg/>") (Sample.world_with "Mug"))
    as (page & Hv & _ & _ & Hp & _).
  - left. reflexivity.
  - reflexivity.
  - exists page. split; [exact Hv|]. rewrite Hp.
    split; vm_compute; reflexivity.
Defined.

(** C3, the claim as written, fails: markup in the product reference
    reaches the page as markup, and the escaped form is not there. *)
Lemma product_markup_reaches_the_page :
  exists page,
    App.view_design Sample.open_config (Sample.browse None) Sample.zero_code
      (Sample.world_with Sample.markup_product)
    = (Py.Ok (App.make_response page 200), Sample.world_with Sample.markup_product)
    /\ Obs.occurs (Py.lit "Product: <b>Mug</b> ") page = true
    /\ Obs.occurs (Py.lit "&lt;b&gt;Mug&lt;/b&gt;") page = false
    /\ Obs.occurs (Py.lit "Product: &lt;b&gt;Mug&lt;/b&gt; ")
         (Spec.html_escaped Sample.zero_code
            (Sample.row "AAAAAAAAAA" Sample.markup_product "<svg/>")) = true
    /\ page <> Spec.html_escaped Sample.zero_code
                 (Sample.row "AAAAAAAAAA" Sample.markup_product "<svg/>").
Proof.
  eexists. split; [vm_compute; reflexivity|].
  split; [vm_compute; reflexivity|].
  split; [vm_compute; reflexivity|].
  split; [vm_compute; reflexivity|].
  apply str_eqb_neq. vm_compute. reflexivity.
Qed.

Lemma mem_dash (ch : ascii) : mem_char (lit "-") ch = true <-> "-"%char = ch.
Proof.
  unfold mem_char. simpl. rewrite orb_false_r, Ascii.eqb_eq.
  split; congruence.
Qed.

Lemma all_dashes (l : str) :
  forallb (mem_char (lit "-")) l = true -> Forall (eq "-"%char) l.
Proof.
  rewrite forallb_forall, Forall_forall. intros H x Hx.
  apply mem_dash, H, Hx.
Qed.

Lemma dash_unless_alnum_cases (s : str) (a : ascii) :
  In a (map dash_unless_alnum s) -> a = "-"%char \/ isalnum a = true.
Proof.
  rewrite in_map_iff. intros (x & <- & _). unfold dash_unless_alnum.
  destruct (isalnum x) eqn:E; auto.
Qed.

Lemma safe_name_of_nonempty (product : str) :
  product <> [] ->
  safe_name product =
  lower (strip_chars (lit "-") (map dash_unless_alnum product)).
Proof.
  intros H. unfold safe_name. apply nonempty_true in H. rewrite H.
  reflexivity.
Qed.

(** C4, as the code has it.  For a stored design whose product
    reference holds at least one alphanumeric character, the name in the
    [download] attribute is made as follows: every character that is not
    alphanumeric is replaced by one hyphen, each on its own (a run of
    them gives as many hyphens); the hyphens before the first and after
    the last alphanumeric character are cut off; what is left is put in
    lower case and followed by a hyphen, the code and [.svg]. *)
Theorem download_name_structure (c : Py.str) (design : App.Design) :
  existsb Py.isalnum (App.product_id design) = true ->
  exists l core r,
    map Obs.dash_unless_alnum (App.product_id design) = l ++ core ++ r
    /\ Forall (eq "-"%char) l
    /\ Forall (eq "-"%char) r
    /\ (exists a t, core = a :: t /\ Py.isalnum a = true)
    /\ (exists t b, core = t ++ [b] /\ Py.isalnum b = true)
    /\ App.download_name c design
       = Py.lower core ++ Py.lit "-" ++ c ++ Py.lit ".svg"
    /\ exists pre post,
         App.html c design =
         pre ++ Py.lit " download='" ++ App.download_name c design
         ++ Py.lit "'>Download SVG</a>" ++ post.
Proof.
  intros Hx. apply existsb_exists in Hx as (x & Hin & Hal).
  assert (Hne : product_id design <> []).
  { intros E. rewrite E in Hin. contradiction. }
  set (m := map dash_unless_alnum (product_id design)).
  set (core := strip_by (mem_char (lit "-")) m).
  destruct (strip_by_split (mem_char (lit "-")) m) as (l & r & Em & Al & Ar).
  fold core in Em.
  assert (Hcore : core <> []).
  { apply (strip_by_nonempty _ _ x).
    - unfold m. replace x with (dash_unless_alnum x)
        by (unfold dash_unless_alnum; now rewrite Hal).
      apply in_map, Hin.
    - destruct (mem_char (lit "-") x) eqn:E; [|reflexivity].
      apply mem_dash in E. subst x. discriminate. }
  assert (Hsub : forall a, In a core -> In a m).
  { intros a Ha. rewrite Em. apply in_or_app. right.
    apply in_or_app. left. exact Ha. }
  assert (Hkeep : forall a, In a core -> mem_char (lit "-") a = false ->
                            isalnum a = true).
  { intros a Ha Hd. destruct (dash_unless_alnum_cases _ _ (Hsub a Ha)) as [->|H];
      [discriminate|exact H]. }
  destruct (strip_by_ends (mem_char (lit "-")) m) as [Hfirst Hlast].
  fold core in Hfirst, Hlast.
  destruct (nonempty_ends core Hcore) as [(a & t & Ea) (t' & b & Eb)].
  exists l, core, r.
  split; [exact Em|].
  split; [apply all_dashes, Al|].
  split; [apply all_dashes, Ar|].
  split.
  { exists a, t. split; [exact Ea|]. apply Hkeep.
    - rewrite Ea. left. reflexivity.
    - apply (Hfirst a t Ea). }
  split.
  { exists t', b. split; [exact Eb|]. apply Hkeep.
    - rewrite Eb. apply in_or_app. right. left. reflexivity.
    - apply (Hlast t' b Eb). }
  assert (Hname : download_name c design = lower core ++ lit "-" ++ c ++ lit ".svg").
  { unfold download_name. rewrite safe_name_of_nonempty by exact Hne.
    reflexivity. }
  split; [exact Hname|].
  exists (html_to_title ++ c ++ html_to_heading ++ c ++ html_to_product
          ++ product_id design ++ html_to_created
          ++ strftime (created_at design) ++ html_to_img
          ++ svg_data_url (svg design) ++ html_to_href
          ++ svg_data_url (svg design) ++ lit "'").
  eexists. unfold html, html_with, download_name.
  rewrite <- !app_assoc. reflexivity.
Qed.

Lemma download_name_structure_witness :
  exists l core r,
    map Obs.dash_unless_alnum (Py.lit "-Tea Mug!") = l ++ core ++ r
    /\ Forall (eq "-"%char) l
    /\ Forall (eq "-"%char) r
    /\ App.download_name Sample.zero_code (Sample.row "AAAAAAAAAA" "-Tea Mug!" "<svg/>")
       = Py.lower core ++ Py.lit "-" ++ Sample.zero_code ++ Py.lit ".svg".
Proof.
  destruct (download_name_structure Sample.zero_code
              (Sample.row "AAAAAAAAAA" "-Tea Mug!" "<svg/>"))
    as (l & core & r & H1 & H2 & H3 & _ & _ & H6 & _).
  - vm_compute. reflexivity.
  - exists l, core, r. repeat split; assumption.
Defined.

(** C4, the claim as written, fails: a run of two characters that are
    not alphanumeric gives two hyphens, not one. *)
Lemma run_of_separators_not_collapsed :
  App.download_name Sample.zero_code
    (Sample.row "AAAAAAAAAA" Sample.spaced_product "<svg/>")
  = Py.lit "a--b-AAAAAAAAAA.svg"
  /\ Spec.download_name Sample.zero_code (Py.lit Sample.spaced_product)
     = Py.lit "a-b-AAAAAAAAAA.svg"
  /\ App.download_name Sample.zero_code
       (Sample.row "AAAAAAAAAA" Sample.spaced_product "<svg/>")
     <> Spec.download_name Sample.zero_code (Py.lit Sample.spaced_product)
  /\ exists page,
       App.view_design Sample.open_config (Sample.browse None) Sample.zero_code
         (Sample.world_with Sample.spaced_product)
       = (Py.Ok (App.make_response page 200), Sample.world_with Sample.spaced_product)
       /\ Obs.occurs (Py.lit "download='a--b-AAAAAAAAAA.svg'") page = true
       /\ Obs.occurs (Py.lit "download='a-b-AAAAAAAAAA.svg'") page = false.
Proof.
  split; [vm_compute; reflexivity|].
  split; [vm_compute; reflexivity|].
  split; [apply str_eqb_neq; vm_compute; reflexivity|].
  eexists. split; [vm_compute; reflexivity|].
  split; vm_compute; reflexivity.
Qed.

(** The default name stands in for an empty product reference only: a
    product reference without any alphanumeric character gives an empty
    base name. *)
Remark base_name_can_be_empty :
  App.safe_name (Py.lit "!!!") = []
  /\ App.download_name Sample.zero_code (Sample.row "AAAAAAAAAA" "!!!" "<svg/>")
     = Py.lit "-AAAAAAAAAA.svg"
  /\ App.safe_name [] = Py.lit "design".
Proof. repeat split; vm_compute; reflexivity. Qed.





End Retrieval.

(** ** Further properties of the code generator *)

Section GeneratorMore.
Import Py Obs App.

Lemma url_safe_cases (c : ascii) :
  url_safe c = true -> ascii_alnum c = true \/ c = "-"%char \/ c = "_"%char.
Proof.
  unfold url_safe. intros H.
  apply orb_true_iff in H as [H|H]; [apply orb_true_iff in H as [H|H]|].
  - left. exact H.
  - right. left. apply Ascii.eqb_eq, H.
  - right. right. apply Ascii.eqb_eq, H.
Qed.

Lemma replace_delete_other (old : ascii) (s : str) :
  Forall (fun c => c <> old) (replace old [] s).
Proof.
  induction s as [|c s IH]; simpl; [constructor|].
  destruct (Ascii.eqb c old) eqn:E; simpl; [exact IH|].
  constructor; [apply Ascii.eqb_neq, E|exact IH].
Qed.

Lemma code_of_token_alnum (t : str) :
  Forall (fun c => url_safe c = true) t ->
  Forall (fun c => ascii_alnum c = true) (code_of_token t).
Proof.
  intros H. unfold code_of_token. apply Forall_slice_to.
  assert (A : Forall (fun c => url_safe c = true /\ c <> "-"%char)
                (replace "-" [] t)).
  { apply Forall_and; [apply replace_delete_Forall, H|apply replace_delete_other]. }
  assert (B : Forall (fun c => (url_safe c = true /\ c <> "-"%char) /\ c <> "_"%char)
                (replace "_" [] (replace "-" [] t))).
  { apply Forall_and; [apply replace_delete_Forall, A|apply replace_delete_other]. }
  eapply Forall_impl; [|exact B].
  intros c [[Hs Hh] Hu]. destruct (url_safe_cases c Hs) as [?|[?|?]];
    [assumption|contradiction|contradiction].
Qed.

Lemma candidate_alnum (w : World) (i : nat) :
  Forall (fun c => ascii_alnum c = true) (candidate w i).
Proof.
  unfold candidate. cbn [seq map]. apply code_of_token_alnum, token_text_url_safe.
Qed.

(** X1.  A generated code holds ASCII letters and digits only: the
    hyphens and underscores of the token are removed, nothing else is.
    Generating it reads exactly seven bytes of entropy and touches
    neither the clock nor the table. *)
Theorem generate_code_letters_and_digits (w : App.World) :
  exists c w',
    App.generate_code w = (Py.Ok c, w')
    /\ Forall (fun ch => Obs.ascii_alnum ch = true) c
    /\ ~ In "-"%char c /\ ~ In "_"%char c
    /\ Obs.drawn w' = Obs.drawn w + 7
    /\ App.designs w' = App.designs w
    /\ App.utcnow w' = App.utcnow w.
Proof.
  exists (candidate w 0). eexists. split; [apply generate_code_run|].
  pose proof (candidate_alnum w 0) as H. rewrite Forall_forall in H.
  split; [apply Forall_forall, H|].
  split; [intros Hin; apply H in Hin; discriminate|].
  split; [intros Hin; apply H in Hin; discriminate|].
  repeat split.
Qed.

End GeneratorMore.

(** ** Response headers *)

Section Headers.
Import Py Obs App Service.

Lemma header_set_item_same (k v : str) (hs : list (str * str)) :
  header k (set_item k v hs) = Some v.
Proof.
  induction hs as [|[k' v'] hs IH]; simpl.
  - rewrite str_eqb_refl. reflexivity.
  - destruct (str_eqb k' k) eqn:E; simpl; rewrite E; [reflexivity|exact IH].
Qed.

Lemma header_set_item_other (k k' v : str) (hs : list (str * str)) :
  k <> k' -> header k (set_item k' v hs) = header k hs.
Proof.
  intros Hne. induction hs as [|[k0 v0] hs IH]; simpl.
  - destruct (str_eqb k' k) eqn:E; [|reflexivity].
    apply str_eqb_eq in E. congruence.
  - destruct (str_eqb k0 k') eqn:E; simpl.
    + apply str_eqb_eq in E. subst k0.
      destruct (str_eqb k' k) eqn:E'; [|reflexivity].
      apply str_eqb_eq in E'. congruence.
    + rewrite IH. reflexivity.
Qed.

Lemma cors_granted_test (cfg : Config) (req : Request) :
  cors_granted cfg req ->
  str_eqb (ALLOWED_ORIGIN cfg) (lit "*")
  || (match origin req with Some s => nonempty s | None => false end
      && origin_is (origin req) (ALLOWED_ORIGIN cfg)) = true.
Proof.
  intros [H|[Ho Hne]].
  - rewrite H. reflexivity.
  - rewrite Ho. cbn [origin_is]. rewrite str_eqb_refl.
    apply nonempty_true in Hne. rewrite Hne. apply orb_true_r.
Qed.

Lemma cors_refused_test (cfg : Config) (req : Request) :
  ALLOWED_ORIGIN cfg <> lit "*" ->
  origin req <> Some (ALLOWED_ORIGIN cfg) \/ origin req = Some [] ->
  str_eqb (ALLOWED_ORIGIN cfg) (lit "*")
  || (match origin req with Some s => nonempty s | None => false end
      && origin_is (origin req) (ALLOWED_ORIGIN cfg)) = false.
Proof.
  intros Hs H. apply str_eqb_neq in Hs. rewrite Hs. cbn [orb].
  destruct H as [H| ->]; [|reflexivity].
  destruct (origin_is (origin req) (ALLOWED_ORIGIN cfg)) eqn:E.
  - apply origin_is_iff in E. contradiction.
  - apply andb_false_r.
Qed.

Lemma echoed_origin_value (o : option str) :
  match o with
  | Some s => if nonempty s then s else lit "*"
  | None => lit "*"
  end = echoed_origin o.
Proof. destruct o as [[|c s]|]; reflexivity. Qed.

Lemma cors_ok_granted_headers (cfg : Config) (req : Request) (r : Response) :
  cors_granted cfg req ->
  header ACAO (headers (cors_ok cfg req r)) = Some (echoed_origin (origin req))
  /\ header VARY (headers (cors_ok cfg req r)) = Some (lit "Origin")
  /\ header ACAC (headers (cors_ok cfg req r)) = Some (lit "true").
Proof.
  intros G. unfold cors_ok. rewrite (cors_granted_test cfg req G).
  cbn [headers set_header]. rewrite echoed_origin_value.
  split; [|split].
  - rewrite !header_set_item_other by (apply str_eqb_neq; reflexivity).
    apply header_set_item_same.
  - rewrite header_set_item_other by (apply str_eqb_neq; reflexivity).
    apply header_set_item_same.
  - apply header_set_item_same.
Qed.

Lemma cors_ok_other_headers (cfg : Config) (req : Request) (r : Response)
    (k : str) :
  k <> ACAO -> k <> VARY -> k <> ACAC ->
  header k (headers (cors_ok cfg req r)) = header k (headers r).
Proof.
  intros H1 H2 H3. unfold cors_ok. destruct (_ || _); [|reflexivity].
  cbn [headers set_header].
  rewrite !header_set_item_other by assumption. reflexivity.
Qed.

(** X2.  [cors_ok] never changes the status, the body or the media type
    of a response.  When the configured origin is the wild card, or the
    request names the configured origin, it sets
    [Access-Control-Allow-Origin] to the request's origin (to [*] when
    the request has none or an empty one), [Vary] to [Origin] and
    [Access-Control-Allow-Credentials] to [true], replacing earlier
    values of these headers.  When a specific origin
    is configured and the request names another one, none, or an empty
    one, the response is returned as it came. *)
Theorem cors_ok_decoration (cfg : App.Config) (req : App.Request)
    (r : App.Response) :
  (App.status (App.cors_ok cfg req r) = App.status r
   /\ App.body (App.cors_ok cfg req r) = App.body r
   /\ App.mimetype (App.cors_ok cfg req r) = App.mimetype r)
  /\ (Service.cors_granted cfg req ->
      App.header Service.ACAO (App.headers (App.cors_ok cfg req r))
      = Some (Service.echoed_origin (App.origin req))
      /\ App.header Service.VARY (App.headers (App.cors_ok cfg req r))
         = Some (Py.lit "Origin")
      /\ App.header Service.ACAC (App.headers (App.cors_ok cfg req r))
         = Some (Py.lit "true"))
  /\ (App.ALLOWED_ORIGIN cfg <> Py.lit "*" ->
      App.origin req <> Some (App.ALLOWED_ORIGIN cfg) \/ App.origin req = Some [] ->
      App.cors_ok cfg req r = r).
Proof.
  split; [|split].
  - unfold cors_ok. destruct (_ || _); repeat split.
  - intros G. apply cors_ok_granted_headers, G.
  - intros Hs H. unfold cors_ok. rewrite (cors_refused_test cfg req Hs H).
    reflexivity.
Qed.

Lemma cors_ok_decoration_witness :
  App.header Service.ACAO
    (App.headers (App.cors_ok Sample.open_config (Sample.post None Py.PNone)
                    (App.jsonify [])))
  = Some (Py.lit "*")
  /\ App.header Service.ACAO
       (App.headers (App.cors_ok Sample.strict_config
                       (Sample.post Sample.example_origin Py.PNone)
                       (App.jsonify [])))
     = Some (Py.lit "https://example.com")
  /\ App.cors_ok Sample.strict_config (Sample.post Sample.evil_origin Py.PNone)
       (App.jsonify [])
     = App.jsonify [].
Proof.
  split; [|split].
  - apply (proj1 (proj2 (cors_ok_decoration Sample.open_config
                           (Sample.post None Py.PNone) (App.jsonify [])))).
    left. reflexivity.
  - apply (proj1 (proj2 (cors_ok_decoration Sample.strict_config
                           (Sample.post Sample.example_origin Py.PNone)
                           (App.jsonify [])))).
    right. split; [reflexivity|vm_compute; discriminate].
  - apply (proj2 (proj2 (cors_ok_decoration Sample.strict_config
                           (Sample.post Sample.evil_origin Py.PNone)
                           (App.jsonify [])))).
    + vm_compute. discriminate.
    + left. vm_compute. discriminate.
Defined.

Lemma origin_not_allowed_test (cfg : Config) (req : Request) :
  origin_allowed cfg req = false ->
  str_eqb (ALLOWED_ORIGIN cfg) (lit "*")
  || (match origin req with Some s => nonempty s | None => false end
      && origin_is (origin req) (ALLOWED_ORIGIN cfg)) = false.
Proof.
  unfold origin_allowed. intros H. apply orb_false_iff in H as [-> ->].
  cbn [orb]. apply andb_false_r.
Qed.

(** X3.  A preflight ([OPTIONS]) request is always answered 204 with an
    empty body and the two [Access-Control-Allow-*] headers for methods
    and request headers, whatever its origin or body; nothing is read
    from the entropy source and nothing is stored.  The origin check of
    the POST path does not apply to it: from an origin that is not
    allowed the answer is still 204, only without
    [Access-Control-Allow-Origin]. *)
Theorem preflight_always_204 (cfg : App.Config) (req : App.Request)
    (w : App.World) :
  App.method req = App.OPTIONS ->
  exists r,
    App.save_design cfg req w = (Py.Ok r, w)
    /\ (forall v, App.save_design cfg (Obs.with_json req v) w = (Py.Ok r, w))
    /\ App.status r = 204%N
    /\ App.body r = App.Text []
    /\ App.header (Py.lit "Access-Control-Allow-Methods") (App.headers r)
       = Some (Py.lit "POST, OPTIONS")
    /\ App.header (Py.lit "Access-Control-Allow-Headers") (App.headers r)
       = Some (Py.lit "Content-Type, Authorization")
    /\ (App.origin_allowed cfg req = false ->
        App.header Service.ACAO (App.headers r) = None).
Proof.
  intros Hm. eexists. unfold save_design, with_json. cbn [method].
  rewrite Hm. unfold ret.
  split; [reflexivity|]. split; [reflexivity|].
  split; [apply status_cors_ok|]. split; [apply body_cors_ok|].
  split; [|split].
  - rewrite cors_ok_other_headers by (apply str_eqb_neq; reflexivity).
    reflexivity.
  - rewrite cors_ok_other_headers by (apply str_eqb_neq; reflexivity).
    reflexivity.
  - intros Ho. unfold cors_ok. rewrite (origin_not_allowed_test cfg req Ho).
    reflexivity.
Qed.

Lemma preflight_always_204_witness :
  exists r,
    App.save_design Sample.strict_config
      Sample.preflight_from_evil Sample.empty_world
    = (Py.Ok r, Sample.empty_world)
    /\ App.status r = 204%N
    /\ App.header Service.ACAO (App.headers r) = None.
Proof.
  destruct (preflight_always_204 Sample.strict_config
              Sample.preflight_from_evil Sample.empty_world eq_refl)
    as (r & H1 & _ & H3 & _ & _ & _ & H7).
  exists r. split; [exact H1|]. split; [exact H3|]. apply H7. reflexivity.
Defined.

End Headers.

(** ** Validation of a submission *)

Section Validation.
Import Py Obs App Service.

Lemma save_design_object (cfg : Config) (req : Request)
    (d : list (str * value)) (w : World) :
  method req <> OPTIONS ->
  origin_allowed cfg req = true ->
  get_json req = PDict d ->
  save_design cfg req w =
  check_and_store cfg req (lookup d (lit "productId")) (lookup d (lit "svg"))
    (lookup d (lit "state")) w.
Proof.
  intros Hm Ho Hj. unfold save_design. rewrite Ho. cbn [negb].
  assert (Hd : or_else (PDict d) (PDict []) = PDict d).
  { unfold or_else. destruct d; reflexivity. }
  destruct (method req); [| |contradiction];
    read_body Hj; rewrite Hd;
    unfold check_and_store, get, lookup, bind, lift;
    destruct (strip_method _); reflexivity.
Qed.

Lemma save_design_no_object (cfg : Config) (req : Request) (v : value)
    (w : World) :
  method req <> OPTIONS ->
  origin_allowed cfg req = true ->
  get_json req = v ->
  truthy v = false ->
  save_design cfg req w = (Ok (fields_required cfg req), w).
Proof.
  intros Hm Ho Hj Hv. unfold save_design. rewrite Ho. cbn [negb].
  destruct (method req); [| |contradiction];
    read_body Hj; unfold or_else; rewrite Hv; reflexivity.
Qed.

Lemma save_design_not_object (cfg : Config) (req : Request) (v : value)
    (w : World) :
  method req <> OPTIONS ->
  origin_allowed cfg req = true ->
  get_json req = v ->
  truthy v = true ->
  (forall d, v <> PDict d) ->
  save_design cfg req w = (Raise AttributeError, w).
Proof.
  intros Hm Ho Hj Hv Hd. unfold save_design. rewrite Ho. cbn [negb].
  destruct (method req); [| |contradiction];
    read_body Hj; unfold or_else; rewrite Hv; unfold bind, lift;
    (destruct v; try reflexivity; exfalso; eapply Hd; reflexivity).
Qed.

(** X4.  When [get_json] returns (the content type is not JSON, or the
    body is within [MAX_CONTENT_LENGTH]): a POST body that is not JSON,
    or is a falsy JSON value ([null], [false], [0], an empty string, list
    or object), is treated as an empty object and answered 400 with
    [{"error": "productId and svg are required"}]; a truthy JSON value
    that is not an object (a number, a string, a list, [true]) has no
    [get], and the handler ends in an [AttributeError] instead of a 400.
    Under a content type that is not JSON the body is not read, and the
    answer is that 400 whatever the size of the body.  None of these
    paths draws a code or writes a row. *)
Theorem body_that_is_not_an_object (cfg : App.Config) (req : App.Request)
    (w : App.World) :
  App.method req = App.POST ->
  App.origin_allowed cfg req = true ->
  (forall v : Py.value, App.get_json req = v -> Py.truthy v = false ->
     App.save_design cfg req w = (Py.Ok (Service.fields_required cfg req), w)
     /\ App.status (Service.fields_required cfg req) = 400%N
     /\ App.body (Service.fields_required cfg req)
        = App.Json [(Py.lit "error", Py.lit "productId and svg are required")])
  /\ (forall v : Py.value, App.get_json req = v -> Py.truthy v = true ->
      (forall d, v <> Py.PDict d) ->
      App.save_design cfg req w = (Py.Raise Py.AttributeError, w))
  /\ (App.is_json req = false ->
      App.save_design cfg req w = (Py.Ok (Service.fields_required cfg req), w)).
Proof.
  intros Hm Ho. split; [|split].
  - intros v Hj Hv. split; [|split].
    + apply (save_design_no_object cfg req v); [congruence|exact Ho|exact Hj|exact Hv].
    + reflexivity.
    + apply body_cors_ok.
  - intros v Hj Hv Hd.
    apply (save_design_not_object cfg req v); [congruence|assumption..].
  - intros Hct.
    apply (save_design_no_object cfg req PNone);
      [congruence|exact Ho|apply get_json_not_json, Hct|reflexivity].
Qed.

Lemma body_that_is_not_an_object_witness :
  App.save_design Sample.open_config (Sample.post None (Py.PList [])) Sample.empty_world
  = (Py.Ok (Service.fields_required Sample.open_config (Sample.post None (Py.PList []))),
     Sample.empty_world)
  /\ App.save_design Sample.open_config (Sample.post None (Py.PList [Py.PInt 1]))
       Sample.empty_world
     = (Py.Raise Py.AttributeError, Sample.empty_world)
  /\ App.save_design Sample.open_config Sample.form_post Sample.empty_world
     = (Py.Ok (Service.fields_required Sample.open_config Sample.form_post),
        Sample.empty_world).
Proof.
  split; [|split].
  - apply (proj1 (body_that_is_not_an_object Sample.open_config
                    (Sample.post None (Py.PList [])) Sample.empty_world
                    eq_refl eq_refl) (Py.PList []) eq_refl eq_refl).
  - apply (proj1 (proj2 (body_that_is_not_an_object Sample.open_config
                    (Sample.post None (Py.PList [Py.PInt 1])) Sample.empty_world
                    eq_refl eq_refl)) (Py.PList [Py.PInt 1]) eq_refl eq_refl).
    intros d. discriminate.
  - apply (proj2 (proj2 (body_that_is_not_an_object Sample.open_config
                    Sample.form_post Sample.empty_world eq_refl eq_refl))).
    reflexivity.
Defined.

(** X5.  For a JSON body that is an object and is within
    [MAX_CONTENT_LENGTH], the presence check comes before the size check
    and does not look at sizes or types of the other field: a
    [productId] that is missing, falsy, or text that is blank after
    trimming is answered 400 whatever [svg] and [state] are (an [svg] of
    more than 1,500,000 characters included, as long as the body stays
    within the cap), and so is a missing or falsy [svg] under a
    [productId] that is text and not blank.  The world is left as it
    was.  The cap on the body comes before the presence check: the same
    object in a body over [MAX_CONTENT_LENGTH] is not answered 400, the
    handler ends in [RequestEntityTooLarge] when it reads the body. *)
Theorem missing_or_blank_fields_give_400 (cfg : App.Config) (req : App.Request)
    (d : list (Py.str * Py.value)) (w : App.World) :
  App.method req = App.POST ->
  App.origin_allowed cfg req = true ->
  App.is_json req = true ->
  App.json req = Py.PDict d ->
  (Py.truthy (Service.lookup d (Py.lit "productId")) = false
   \/ (exists p, Service.lookup d (Py.lit "productId") = Py.PStr p
                 /\ Py.strip p = [])
   \/ (exists p, Service.lookup d (Py.lit "productId") = Py.PStr p
                 /\ Py.truthy (Service.lookup d (Py.lit "svg")) = false)) ->
  ((App.content_length req <= App.MAX_CONTENT_LENGTH)%N ->
     App.save_design cfg req w = (Py.Ok (Service.fields_required cfg req), w)
     /\ App.status (Service.fields_required cfg req) = 400%N)
  /\ ((App.MAX_CONTENT_LENGTH < App.content_length req)%N ->
      App.save_design cfg req w = (Py.Raise Py.RequestEntityTooLarge, w)).
Proof.
  intros Hm Ho Hct Hj H. split.
  2: { intros Hover.
       apply save_design_unread; [congruence|exact Ho|].
       apply get_json_over; assumption. }
  intros Hcap. split; [|reflexivity].
  assert (Hg : get_json req = PDict d).
  { rewrite (get_json_within req Hct Hcap), Hj. reflexivity. }
  rewrite (save_design_object cfg req d w) by (congruence || assumption).
  unfold check_and_store, bind, lift, or_else.
  destruct H as [H|[(p & Hp & Hb)|(p & Hp & Hs)]].
  - rewrite H. reflexivity.
  - rewrite Hp. destruct (truthy (PStr p)); cbn [strip_method];
      [rewrite Hb|]; reflexivity.
  - rewrite Hp, Hs.
    destruct (truthy (PStr p)); cbn [strip_method truthy str_eqb negb];
      rewrite orb_true_r; reflexivity.
Qed.

Lemma missing_or_blank_fields_give_400_witness :
  ((App.content_length Sample.blank_over_limit <= App.MAX_CONTENT_LENGTH)%N
   /\ Py.len Sample.svg_over_limit = 1500001%N
   /\ App.save_design Sample.open_config Sample.blank_over_limit
        Sample.empty_world
      = (Py.Ok (Service.fields_required Sample.open_config
                  Sample.blank_over_limit),
         Sample.empty_world))
  /\ ((App.MAX_CONTENT_LENGTH < App.content_length Sample.blank_quotes)%N
      /\ App.save_design Sample.open_config Sample.blank_quotes
           Sample.empty_world
         = (Py.Raise Py.RequestEntityTooLarge, Sample.empty_world)).
Proof.
  assert (P : (Obs.least_string_size (Py.lit "   ") <= 100)%N)
    by (vm_compute; discriminate).
  pose proof (over_limit_within None (Py.lit "   ") P :
                (App.content_length Sample.blank_over_limit
                 <= App.MAX_CONTENT_LENGTH)%N) as K0.
  pose proof (quotes_over_cap None (Py.lit "   ") :
                (App.MAX_CONTENT_LENGTH
                 < App.content_length Sample.blank_quotes)%N) as K1.
  pose proof svg_over_limit_len as L1.
  split; (split; [assumption|]).
  - split; [assumption|].
    apply (proj1 (missing_or_blank_fields_give_400 Sample.open_config
                    Sample.blank_over_limit
                    [(Py.lit "productId", Py.PStr (Py.lit "   "));
                     (Py.lit "svg", Py.PStr Sample.svg_over_limit)]
                    Sample.empty_world eq_refl eq_refl eq_refl eq_refl
                    (or_intror (or_introl
                       (ex_intro _ (Py.lit "   ") (conj eq_refl eq_refl)))))
                 K0).
  - apply (proj2 (missing_or_blank_fields_give_400 Sample.open_config
                    Sample.blank_quotes
                    [(Py.lit "productId", Py.PStr (Py.lit "   "));
                     (Py.lit "svg", Py.PStr Sample.svg_of_quotes)]
                    Sample.empty_world eq_refl eq_refl eq_refl eq_refl
                    (or_intror (or_introl
                       (ex_intro _ (Py.lit "   ") (conj eq_refl eq_refl)))))
                 K1).
Defined.

(** X6.  A [productId] that is truthy but not text (a number other than
    zero, [true], a list or an object that is not empty) has no [strip]:
    the handler ends in an [AttributeError] before it looks at [svg],
    and leaves the world as it was. *)
Theorem product_id_that_is_not_text (cfg : App.Config) (req : App.Request)
    (d : list (Py.str * Py.value)) (w : App.World) :
  App.method req = App.POST ->
  App.origin_allowed cfg req = true ->
  App.get_json req = Py.PDict d ->
  Py.truthy (Service.lookup d (Py.lit "productId")) = true ->
  (forall p, Service.lookup d (Py.lit "productId") <> Py.PStr p) ->
  App.save_design cfg req w = (Py.Raise Py.AttributeError, w).
Proof.
  intros Hm Ho Hj Ht Hn.
  rewrite (save_design_object cfg req d w) by (congruence || assumption).
  unfold check_and_store, bind, lift, or_else. rewrite Ht.
  destruct (lookup d (lit "productId")); try reflexivity.
  exfalso. eapply Hn. reflexivity.
Qed.

Lemma product_id_that_is_not_text_witness :
  App.save_design Sample.open_config
    (Sample.post None
       (Py.PDict [(Py.lit "productId", Py.PInt 42);
                  (Py.lit "svg", Py.PStr (Py.lit "<svg/>"))]))
    Sample.empty_world
  = (Py.Raise Py.AttributeError, Sample.empty_world).
Proof.
  apply (product_id_that_is_not_text Sample.open_config
           (Sample.post None
              (Py.PDict [(Py.lit "productId", Py.PInt 42);
                         (Py.lit "svg", Py.PStr (Py.lit "<svg/>"))]))
           [(Py.lit "productId", Py.PInt 42);
            (Py.lit "svg", Py.PStr (Py.lit "<svg/>"))]
           Sample.empty_world eq_refl eq_refl eq_refl eq_refl).
  intros p. discriminate.
Defined.

End Validation.

(** ** What a successful submission stores *)

Section Stored.
Import Py Obs App Service.

Lemma or_else_text (v : value) (q : str) :
  or_else v (PStr []) = PStr q ->
  (truthy v = true /\ v = PStr q) \/ (truthy v = false /\ q = []).
Proof.
  unfold or_else. destruct (truthy v) eqn:T; intros H.
  - left. split; [reflexivity|exact H].
  - right. split; [reflexivity|]. injection H as <-. reflexivity.
Qed.

Lemma check_and_store_stored (cfg : Config) (req : Request)
    (pv sv state : value) (w w' : World) (r : Response) :
  check_and_store cfg req pv sv state w = (Ok r, w') ->
  status r = 200%N ->
  exists p text,
    pv = PStr p
    /\ strip p <> []
    /\ sv = PStr text
    /\ text <> []
    /\ (len text <= SVG_LIMIT)%N
    /\ taken w (candidate w (settle w 3 0)) = false
    /\ r = cors_ok cfg req (jsonify [(lit "code", candidate w (settle w 3 0))])
    /\ w' = with_row (advance (S (settle w 3 0)) w)
              (new_row w (candidate w (settle w 3 0)) (strip p) text state).
Proof.
  unfold check_and_store, bind, lift. intros Hs H200.
  destruct (strip_method (or_else pv (PStr []))) as [product|e] eqn:E1;
    [|discriminate].
  destruct (or_else pv (PStr [])) as [| | | |q| |] eqn:Eo; try discriminate.
  cbn [strip_method] in E1. injection E1 as <-.
  destruct (negb (nonempty (strip q)) || negb (truthy (or_else sv (PStr []))))
    eqn:E2.
  { unfold ret in Hs. injection Hs as <- _. discriminate. }
  apply orb_false_iff in E2 as [Hq Ht].
  apply negb_false_iff in Hq, Ht. apply nonempty_true in Hq.
  destruct (or_else_text pv q Eo) as [[_ Hpv]|[_ ->]]; [|contradiction].
  assert (Hsv : or_else sv (PStr []) = sv).
  { unfold or_else in *. destruct (truthy sv); [reflexivity|discriminate]. }
  rewrite Hsv in *.
  destruct (len_builtin sv) as [n|e] eqn:El; [|discriminate].
  destruct (SVG_LIMIT <? n)%N eqn:En.
  { unfold ret in Hs. injection Hs as <- _. discriminate. }
  rewrite store_design_run in Hs. cbv zeta in Hs.
  destruct sv as [| | | |text| |]; try discriminate.
  destruct (taken w _) eqn:T; [discriminate|].
  injection Hs as <- <-. injection El as <-.
  exists q, text. repeat split; try assumption; try reflexivity.
  - intros ->. discriminate.
  - apply N.ltb_ge, En.
Qed.

(** The only way to a 200 answer: text under both keys, the checks
    passed, a free code found; the world gains the row and nothing
    else changes but the position of the entropy source. *)
Lemma save_design_stored (cfg : Config) (req : Request) (w w' : World)
    (r : Response) :
  save_design cfg req w = (Ok r, w') ->
  status r = 200%N ->
  exists d p text,
    get_json req = PDict d
    /\ lookup d (lit "productId") = PStr p
    /\ strip p <> []
    /\ lookup d (lit "svg") = PStr text
    /\ text <> []
    /\ (len text <= SVG_LIMIT)%N
    /\ taken w (candidate w (settle w 3 0)) = false
    /\ r = cors_ok cfg req (jsonify [(lit "code", candidate w (settle w 3 0))])
    /\ w' = with_row (advance (S (settle w 3 0)) w)
              (new_row w (candidate w (settle w 3 0)) (strip p) text
                 (lookup d (lit "state"))).
Proof.
  intros Hs H200.
  assert (Hne : method req <> OPTIONS).
  { intros Hm. unfold save_design in Hs. rewrite Hm in Hs. unfold ret in Hs.
    injection Hs as <- _. rewrite status_cors_ok in H200. discriminate. }
  assert (Ho : origin_allowed cfg req = true).
  { destruct (origin_allowed cfg req) eqn:Ho; [reflexivity|].
    unfold save_design in Hs. rewrite Ho in Hs. cbn [negb] in Hs.
    unfold ret in Hs.
    destruct (method req); [| |contradiction]; injection Hs as <- _;
      discriminate. }
  destruct (get_json req) as [v|e] eqn:Hg.
  2: { rewrite (save_design_unread cfg req e w Hne Ho Hg) in Hs.
       discriminate. }
  assert (Hj : truthy v = true).
  { destruct (truthy v) eqn:Hj; [reflexivity|].
    rewrite (save_design_no_object cfg req v w Hne Ho Hg Hj) in Hs.
    injection Hs as <- _. discriminate. }
  assert (Hd : exists d, v = PDict d).
  { destruct v as [| | | | | |d]; eauto;
      rewrite (save_design_not_object cfg req _ w Hne Ho Hg Hj) in Hs;
      (discriminate || (intros d; discriminate)). }
  destruct Hd as [d ->].
  rewrite (save_design_object cfg req d w Hne Ho Hg) in Hs.
  destruct (check_and_store_stored _ _ _ _ _ _ _ _ Hs H200)
    as (p & text & H1 & H2 & H3 & H4 & H5 & H6 & H7 & H8).
  exists d, p, text. repeat split; assumption.
Qed.

(** Any other end of [save_design] leaves the table as it was. *)
Lemma save_design_table (cfg : Config) (req : Request) (w : World) :
  match save_design cfg req w with
  | (Ok r, w') => status r = 200%N \/ designs w' = designs w
  | (Raise _, w') => designs w' = designs w
  end.
Proof.
  pose proof (save_design_paths cfg req w) as P.
  destruct (save_design cfg req w) as [[r|e] w'] eqn:E.
  - inversion P; subst; try (right; reflexivity).
    match goal with
    | H : store_design _ _ _ _ _ _ = _ |- _ =>
        apply store_design_status in H as [-> _]
    end. left. reflexivity.
  - inversion P; subst; try reflexivity.
    match goal with
    | H : store_design _ _ _ _ _ _ = _ |- _ =>
        apply store_design_raise in H; exact H
    end.
Qed.

End Stored.

(** ** The table over time *)

Section Table.
Import Py Obs App Service.

Lemma dropwhile_fixed (p : ascii -> bool) (s : str) :
  (forall a t, s = a :: t -> p a = false) -> dropwhile p s = s.
Proof.
  destruct s as [|a t]; [reflexivity|]. intros H. simpl.
  rewrite (H a t eq_refl). reflexivity.
Qed.

(** Trimming what is already trimmed changes nothing. *)
Lemma strip_by_idempotent (p : ascii -> bool) (s : str) :
  strip_by p (strip_by p s) = strip_by p s.
Proof.
  destruct (strip_by_ends p s) as [Hfirst Hlast].
  set (core := strip_by p s) in *.
  unfold strip_by at 1, rstrip_by, lstrip_by.
  rewrite (dropwhile_fixed p core Hfirst).
  rewrite dropwhile_fixed; [apply rev_involutive|].
  intros b t E. apply (Hlast (rev t) b).
  rewrite <- (rev_involutive core), E. reflexivity.
Qed.

Lemma taken_iff (w : World) (c : str) :
  taken w c = true <-> In c (map code (designs w)).
Proof.
  unfold taken. rewrite existsb_exists, in_map_iff. split.
  - intros (d & Hin & E). apply str_eqb_eq in E. eauto.
  - intros (d & E & Hin). exists d. split; [exact Hin|].
    apply str_eqb_eq, E.
Qed.

Lemma new_row_ok (w : World) (i : nat) (p text : str) (state : value) :
  strip p <> [] -> text <> [] -> (len text <= SVG_LIMIT)%N ->
  row_ok (new_row w (candidate w i) (strip p) text state).
Proof.
  intros Hp Ht Hl. unfold row_ok. cbn [new_row code product_id svg].
  destruct (candidate_shape w i) as [Hlen _].
  split; [exact Hlen|]. split; [apply candidate_alnum|].
  split; [exact Hp|]. split; [apply strip_by_idempotent|].
  split; assumption.
Qed.

Lemma table_ok_append (w : World) (i : nat) (p text : str) (state : value) :
  table_ok (designs w) ->
  taken w (candidate w i) = false ->
  strip p <> [] -> text <> [] -> (len text <= SVG_LIMIT)%N ->
  table_ok (designs w ++ [new_row w (candidate w i) (strip p) text state]).
Proof.
  intros (Hc & Hi & Hr) Hfree Hp Ht Hl. split; [|split].
  - rewrite map_app. apply NoDup_app; [exact Hc|repeat constructor; auto|].
    intros c Hin [<-|[]]. cbn [new_row code] in Hin.
    apply taken_iff in Hin. congruence.
  - rewrite map_app, length_app, Hi. cbn [List.length map new_row id].
    rewrite Nat.add_1_r, seq_S, map_app. cbn [map]. do 2 f_equal.
    rewrite len_length. lia.
  - apply Forall_app. split; [exact Hr|].
    constructor; [|constructor]. apply new_row_ok; assumption.
Qed.

Lemma view_design_world (cfg : Config) (req : Request) (c : str) (w : World) :
  snd (view_design cfg req c w) = w.
Proof.
  unfold view_design, render_design, bind, query_first, ret.
  destruct (nonempty (ADMIN_USER cfg) && nonempty (ADMIN_PASS cfg));
    [destruct (negb _)|]; try reflexivity;
    destruct (find _ _); reflexivity.
Qed.

Lemma handle_table (cfg : Config) (k : call) (w : World) :
  designs (handle cfg k w) = designs w
  \/ exists i p text state,
       taken w (candidate w i) = false
       /\ strip p <> [] /\ text <> [] /\ (len text <= SVG_LIMIT)%N
       /\ designs (handle cfg k w)
          = designs w ++ [new_row w (candidate w i) (strip p) text state].
Proof.
  destruct k as [req|req c| |now]; cbn [handle].
  - pose proof (save_design_table cfg req w) as T.
    destruct (save_design cfg req w) as [[r|e] w'] eqn:E; cbn [snd];
      [|left; exact T].
    destruct T as [H200|T]; [|left; exact T].
    destruct (save_design_stored cfg req w w' r E H200)
      as (d & p & text & _ & _ & Hp & _ & Ht & Hl & Hfree & _ & ->).
    right. exists (settle w 3 0), p, text, (lookup d (lit "state")).
    repeat split; assumption.
  - left. rewrite view_design_world. reflexivity.
  - left. reflexivity.
  - left. reflexivity.
Qed.

(** X7.  Whatever sequence of submissions, retrievals, probes and clock
    changes the service goes through, a table that starts with unique
    codes, rows numbered 1, 2, 3, ... in insertion order and well-formed
    rows keeps all three: no two rows ever share a code; the [n]-th row
    has [id] [n]; and every row has a code of one to ten ASCII letters
    and digits, a product reference that is not empty and has no white
    space around it, and SVG text that is not empty and has at most
    1,500,000 characters. *)
Theorem table_invariant (cfg : App.Config) (calls : list Service.call)
    (w : App.World) :
  Service.table_ok (App.designs w) ->
  Service.table_ok (App.designs (Service.serve cfg calls w)).
Proof.
  revert w. induction calls as [|k calls IH]; intros w H; cbn [serve];
    [exact H|].
  apply IH.
  destruct (handle_table cfg k w)
    as [E|(i & p & text & state & Hfree & Hp & Ht & Hl & E)]; rewrite E.
  - exact H.
  - apply table_ok_append; assumption.
Qed.

Lemma table_invariant_witness :
  Service.table_ok
    (App.designs
       (Service.serve Sample.open_config
          [Service.Submit Sample.mug_request;
           Service.Browse (Sample.browse None) Sample.zero_code;
           Service.Submit Sample.mug_request]
          Sample.empty_world)).
Proof.
  apply table_invariant.
  split; [constructor|split; [reflexivity|constructor]].
Defined.

End Table.

(** ** Stored designs stay, codes are not issued twice *)

Section Persistence.
Import Py Obs App Service.

Lemma find_in_prefix (c : str) (l extra : list Design) (d : Design) :
  find (fun r => str_eqb (code r) c) l = Some d ->
  find (fun r => str_eqb (code r) c) (l ++ extra) = Some d.
Proof.
  induction l as [|x l IH]; simpl; [discriminate|].
  destruct (str_eqb (code x) c); [auto|exact IH].
Qed.

Lemma handle_keeps_rows (cfg : Config) (k : call) (w : World) (c : str)
    (d : Design) :
  find (fun r => str_eqb (code r) c) (designs w) = Some d ->
  find (fun r => str_eqb (code r) c) (designs (handle cfg k w)) = Some d.
Proof.
  intros H.
  destruct (handle_table cfg k w) as [E|(i & p & text & state & _ & _ & _ & _ & E)];
    rewrite E; [exact H|apply find_in_prefix, H].
Qed.

Lemma serve_keeps_rows (cfg : Config) (calls : list call) (w : World) (c : str)
    (d : Design) :
  find (fun r => str_eqb (code r) c) (designs w) = Some d ->
  find (fun r => str_eqb (code r) c) (designs (serve cfg calls w)) = Some d.
Proof.
  revert w. induction calls as [|k calls IH]; intros w H; cbn [serve];
    [exact H|].
  apply IH, handle_keeps_rows, H.
Qed.

(** X8.  A stored design is never removed or altered: if a retrieval of
    a code shows a page now, then after any further sequence of
    submissions, retrievals, probes and clock changes the same retrieval
    shows the same page, character for character. *)
Theorem stored_page_is_stable (cfg : App.Config) (viewer : App.Request)
    (c page : Py.str) (calls : list Service.call) (w : App.World) :
  App.view_design cfg viewer c w = (Py.Ok (App.make_response page 200), w) ->
  App.view_design cfg viewer c (Service.serve cfg calls w)
  = (Py.Ok (App.make_response page 200), Service.serve cfg calls w).
Proof.
  intros H.
  assert (S200 : forall o, o = (Ok (make_response page 200), w) ->
            match fst o with Ok r => status r | Raise _ => 0%N end = 200%N).
  { intros o ->. reflexivity. }
  assert (G : exists d, find (fun r => str_eqb (code r) c) (designs w) = Some d
                        /\ page = html c d
                        /\ forall w', view_design cfg viewer c w' = render_design c w').
  { unfold view_design in *.
    destruct (nonempty (ADMIN_USER cfg) && nonempty (ADMIN_PASS cfg));
      [destruct (negb (require_basic_auth cfg viewer));
         [apply S200 in H; discriminate|]|];
      unfold render_design, bind, query_first, ret in H;
      (destruct (find _ (designs w)) as [d|] eqn:F;
         [|apply S200 in H; discriminate]);
      exists d; (split; [reflexivity|]);
      (split; [injection H as H; symmetry; exact H|reflexivity]). }
  destruct G as (d & F & -> & V).
  rewrite V. apply render_design_found, serve_keeps_rows, F.
Qed.

Lemma stored_page_is_stable_witness :
  exists page,
    App.view_design Sample.open_config (Sample.browse None) Sample.zero_code
      (Service.serve Sample.open_config
         [Service.Submit Sample.mug_request; Service.Tick Sample.noon]
         (Sample.world_with "Mug"))
    = (Py.Ok (App.make_response page 200),
       Service.serve Sample.open_config
         [Service.Submit Sample.mug_request; Service.Tick Sample.noon]
         (Sample.world_with "Mug")).
Proof.
  eexists.
  apply (stored_page_is_stable Sample.open_config (Sample.browse None)
           Sample.zero_code _
           [Service.Submit Sample.mug_request; Service.Tick Sample.noon]
           (Sample.world_with "Mug")).
  vm_compute. reflexivity.
Defined.

Lemma taken_found (w : World) (c : str) :
  taken w c = true ->
  exists d, find (fun r => str_eqb (code r) c) (designs w) = Some d.
Proof.
  intros T. destruct (find _ (designs w)) as [d|] eqn:F; [eauto|].
  apply find_by_code in F. unfold taken in T. congruence.
Qed.

Lemma found_taken (w : World) (c : str) (d : Design) :
  find (fun r => str_eqb (code r) c) (designs w) = Some d -> taken w c = true.
Proof.
  intros F. destruct (taken w c) eqn:T; [reflexivity|].
  apply find_by_code in T. congruence.
Qed.

(** X9.  A code is issued once.  The code in a 200 answer is one that
    no row had before the submission and that a row has after it; and
    when two submissions are both answered 200, with any sequence of
    calls between them, their codes differ. *)
Theorem codes_are_issued_once (cfg : App.Config) (req1 req2 : App.Request)
    (between : list Service.call) (w w1 w2 : App.World)
    (r1 r2 : App.Response) (c1 c2 : Py.str) :
  App.save_design cfg req1 w = (Py.Ok r1, w1) ->
  App.body r1 = App.Json [(Py.lit "code", c1)] ->
  App.save_design cfg req2 (Service.serve cfg between w1) = (Py.Ok r2, w2) ->
  App.body r2 = App.Json [(Py.lit "code", c2)] ->
  Obs.taken w c1 = false
  /\ Obs.taken w1 c1 = true
  /\ c1 <> c2.
Proof.
  assert (K : forall req u u' r c,
            save_design cfg req u = (Ok r, u') ->
            body r = Json [(lit "code", c)] ->
            taken u c = false /\ taken u' c = true).
  { intros req u u' r c Hs Hb.
    assert (H200 : status r = 200%N).
    { pose proof (save_design_paths cfg req u) as P. rewrite Hs in P.
      inversion P; subst;
        try (cbn [body with_status] in Hb; rewrite ?body_cors_ok in Hb;
             vm_compute in Hb; discriminate).
      - exfalso. unfold save_design in Hs.
        match goal with H : method req = OPTIONS |- _ => rewrite H in Hs end.
        unfold ret in Hs. injection Hs as <-.
        rewrite body_cors_ok in Hb. discriminate.
      - match goal with
        | H : store_design _ _ _ _ _ _ = _ |- _ =>
            apply store_design_status in H as [-> _]
        end. reflexivity. }
    destruct (save_design_stored cfg req u u' r Hs H200)
      as (d & p & text & _ & _ & _ & _ & _ & _ & Hfree & -> & ->).
    rewrite body_cors_ok in Hb. injection Hb as <-.
    split; [exact Hfree|].
    apply taken_iff. cbn [designs with_row]. rewrite map_app.
    apply in_or_app. right. left. reflexivity. }
  intros Hs1 Hb1 Hs2 Hb2.
  destruct (K _ _ _ _ _ Hs1 Hb1) as [F1 T1].
  destruct (K _ _ _ _ _ Hs2 Hb2) as [F2 _].
  split; [exact F1|]. split; [exact T1|].
  intros <-.
  destruct (taken_found w1 c1 T1) as [d Fd].
  apply (serve_keeps_rows cfg between) in Fd.
  apply found_taken in Fd. congruence.
Qed.

Lemma codes_are_issued_once_witness :
  Obs.taken Sample.empty_world Sample.zero_code = false
  /\ Obs.taken (snd (App.save_design Sample.open_config Sample.mug_request
                       Sample.empty_world)) Sample.zero_code = true
  /\ Sample.zero_code <> Py.lit "w".
Proof.
  apply (codes_are_issued_once Sample.open_config Sample.mug_request
           Sample.mug_request [Service.Probe] Sample.empty_world
           (snd (App.save_design Sample.open_config Sample.mug_request
                   Sample.empty_world))
           (snd (App.save_design Sample.open_config Sample.mug_request
                   (Service.serve Sample.open_config [Service.Probe]
                      (snd (App.save_design Sample.open_config Sample.mug_request
                              Sample.empty_world)))))
           (App.cors_ok Sample.open_config Sample.mug_request
              (App.jsonify [(Py.lit "code", Sample.zero_code)]))
           (App.cors_ok Sample.open_config Sample.mug_request
              (App.jsonify [(Py.lit "code", Py.lit "w")])));
    vm_compute; reflexivity.
Defined.

End Persistence.

(** ** Answers of the retrieval handler *)

Section RetrievalMore.
Import Py Obs App Service.

Lemma gate_closed (cfg : Config) (req : Request) :
  ~ gate_open cfg req ->
  ADMIN_USER cfg <> [] /\ ADMIN_PASS cfg <> []
  /\ authorization req <> Some (ADMIN_USER cfg, ADMIN_PASS cfg).
Proof.
  unfold gate_open. intros H. repeat split; intros E; apply H; tauto.
Qed.

(** X10.  A retrieval has exactly three answers and no other effect.
    When both credentials are configured and the request does not carry
    exactly that pair, it is the 401 challenge.  Otherwise it is 404 with
    the text [Code not found] when no row has the code, and 200 with the
    page of a row that has the code when there is one.  It never raises
    and never changes the world: no entropy is read, no row is added. *)
Theorem view_design_answers (cfg : App.Config) (req : App.Request)
    (c : Py.str) (w : App.World) :
  (~ Obs.gate_open cfg req ->
     App.view_design cfg req c w = (Py.Ok App.challenge, w))
  /\ (Obs.gate_open cfg req -> Obs.taken w c = false ->
      App.view_design cfg req c w
      = (Py.Ok (App.make_response (Py.lit "Code not found") 404), w))
  /\ (Obs.gate_open cfg req -> Obs.taken w c = true ->
      exists d,
        In d (App.designs w) /\ App.code d = c
        /\ App.view_design cfg req c w
           = (Py.Ok (App.make_response (App.html c d) 200), w)).
Proof.
  split; [|split].
  - intros H. destruct (gate_closed cfg req H) as (Hu & Hp & Ha).
    apply view_design_closed; assumption.
  - intros G T. rewrite view_design_open by exact G.
    unfold render_design, bind, query_first, ret.
    apply find_by_code in T. rewrite T. reflexivity.
  - intros G T. rewrite view_design_open by exact G.
    destruct (taken_found w c T) as [d F]. exists d.
    destruct (find_some _ _ F) as [Hin Hc]. apply str_eqb_eq in Hc.
    split; [exact Hin|]. split; [exact Hc|].
    apply render_design_found, F.
Qed.

Lemma view_design_answers_witness :
  App.view_design Sample.strict_config (Sample.browse Sample.wrong_login)
    (Py.lit "nope") (Sample.world_with "Mug")
  = (Py.Ok App.challenge, Sample.world_with "Mug")
  /\ App.view_design Sample.strict_config (Sample.browse Sample.admin_login)
       (Py.lit "nope") (Sample.world_with "Mug")
     = (Py.Ok (App.make_response (Py.lit "Code not found") 404),
        Sample.world_with "Mug")
  /\ exists d,
       In d (App.designs (Sample.world_with "Mug")) /\ App.code d = Sample.zero_code
       /\ App.view_design Sample.strict_config (Sample.browse Sample.admin_login)
            Sample.zero_code (Sample.world_with "Mug")
          = (Py.Ok (App.make_response (App.html Sample.zero_code d) 200),
             Sample.world_with "Mug").
Proof.
  assert (G : Obs.gate_open Sample.strict_config (Sample.browse Sample.admin_login)).
  { right. right. reflexivity. }
  split; [|split].
  - apply (proj1 (view_design_answers Sample.strict_config
                    (Sample.browse Sample.wrong_login) (Py.lit "nope")
                    (Sample.world_with "Mug"))).
    intros [H|[H|H]]; vm_compute in H; discriminate.
  - apply (proj1 (proj2 (view_design_answers Sample.strict_config
                           (Sample.browse Sample.admin_login) (Py.lit "nope")
                           (Sample.world_with "Mug"))) G).
    reflexivity.
  - apply (proj2 (proj2 (view_design_answers Sample.strict_config
                           (Sample.browse Sample.admin_login) Sample.zero_code
                           (Sample.world_with "Mug"))) G).
    reflexivity.
Defined.

Lemma data_url_payload (a b : str) :
  svg_data_url a = svg_data_url b ->
  Base64.b64encode (Utf8.encode a) = Base64.b64encode (Utf8.encode b).
Proof. unfold svg_data_url. apply app_inv_head. Qed.

(** X11.  The data URL determines the SVG text: two different texts
    never get the same data URL.  Nothing of the SVG is lost or merged
    on its way into the page. *)
Theorem svg_data_url_injective (a b : Py.str) :
  a <> b -> App.svg_data_url a <> App.svg_data_url b.
Proof.
  intros Hne H. apply Hne. apply data_url_payload in H.
  apply (f_equal Base64.b64decode) in H.
  rewrite !b64decode_b64encode in H. injection H as H.
  apply (f_equal Utf8.decode) in H.
  rewrite !utf8_decode_encode in H. injection H as H. exact H.
Qed.

Lemma svg_data_url_injective_witness :
  App.svg_data_url (Py.lit "<svg/>") <> App.svg_data_url (Py.lit "<svg></svg>").
Proof.
  apply (svg_data_url_injective (Py.lit "<svg/>") (Py.lit "<svg></svg>")).
  vm_compute. discriminate.
Defined.

Lemma lower_char_facts (c : ascii) :
  (c = "-"%char \/ isalnum c = true) ->
  markup_char (lower_char c) = false
  /\ (isalnum c = true -> lower_char c <> "-"%char).
Proof.
  intros H.
  assert (G : negb (Ascii.eqb c "-" || isalnum c)
              || (negb (markup_char (lower_char c))
                  && (negb (isalnum c) || negb (Ascii.eqb (lower_char c) "-")))
              = true).
  { clear H. revert c. by_chars. }
  assert (Hc : Ascii.eqb c "-" || isalnum c = true).
  { destruct H as [-> | ->]; [reflexivity|apply orb_true_r]. }
  rewrite Hc in G. cbn [negb orb] in G.
  apply andb_true_iff in G as [G1 G2].
  split.
  - destruct (markup_char (lower_char c)); [discriminate|reflexivity].
  - intros Ha E. rewrite Ha, E in G2. discriminate.
Qed.

Lemma strip_by_sublist (p : ascii -> bool) (s : str) (a : ascii) :
  In a (strip_by p s) -> In a s.
Proof.
  intros H. destruct (strip_by_split p s) as (l & r & E & _ & _).
  rewrite E. apply in_or_app. right. apply in_or_app. left. exact H.
Qed.

Lemma safe_name_unfold (product : str) :
  safe_name product =
  lower (strip_chars (lit "-")
           (map dash_unless_alnum
              (if nonempty product then product else lit "design"))).
Proof. reflexivity. Qed.

(** X12.  The base name of the download is the lower-casing of a text
    made of hyphens and alphanumeric characters that has no hyphen at
    either end (the product reference, or [design] in place of an empty
    one, with every other character turned into a hyphen and the hyphens
    at both ends removed).  The base name holds no quote and no [<], [>]
    or [&], and it neither starts nor ends with a hyphen.  With a code
    of letters and digits, the whole value of the [download] attribute
    is free of those characters, so it cannot end the attribute it sits
    in.  Nothing is said about the base name being alphanumeric: that
    is a property of the text before [lower] is applied. *)
Theorem download_name_is_attribute_safe (c : Py.str) (design : App.Design) :
  (exists core,
     App.safe_name (App.product_id design) = Py.lower core
     /\ Forall (fun ch => ch = "-"%char \/ Py.isalnum ch = true) core
     /\ (forall t, core <> "-"%char :: t)
     /\ (forall t, core <> t ++ ["-"%char]))
  /\ Forall (fun ch => Obs.markup_char ch = false)
       (App.safe_name (App.product_id design))
  /\ (forall t, App.safe_name (App.product_id design) <> "-"%char :: t)
  /\ (forall t, App.safe_name (App.product_id design) <> t ++ ["-"%char])
  /\ (Forall (fun ch => Obs.ascii_alnum ch = true) c ->
      Forall (fun ch => Obs.markup_char ch = false)
        (App.download_name c design)).
Proof.
  unfold download_name. rewrite safe_name_unfold.
  match goal with |- context [map dash_unless_alnum ?x] => set (q := x) end.
  match goal with |- context [lower ?x] => set (core := x) end.
  assert (Hcore : forall a, In a core -> a = "-"%char \/ isalnum a = true).
  { intros a Ha. apply strip_by_sublist in Ha.
    apply (dash_unless_alnum_cases q a Ha). }
  destruct (strip_by_ends (mem_char (lit "-")) (map dash_unless_alnum q))
    as [Hfirst Hlast].
  change (strip_by (mem_char (lit "-")) (map dash_unless_alnum q)) with core
    in Hfirst, Hlast.
  clearbody core. clear q.
  assert (Hedge : forall a, In a core -> mem_char (lit "-") a = false ->
                            lower_char a <> "-"%char).
  { intros a Ha Hd. destruct (Hcore a Ha) as [-> | Hal]; [discriminate|].
    apply (lower_char_facts a (or_intror Hal)), Hal. }
  assert (Hsafe : Forall (fun ch => markup_char ch = false) (lower core)).
  { unfold lower. rewrite Forall_forall. intros x Hx.
    apply in_map_iff in Hx as (a & <- & Ha).
    apply (lower_char_facts a (Hcore a Ha)). }
  split.
  { exists core. split; [reflexivity|].
    split; [rewrite Forall_forall; exact Hcore|]. split.
    - intros t E. pose proof (Hfirst _ _ E) as F. discriminate.
    - intros t E. pose proof (Hlast _ _ E) as F. discriminate. }
  split; [exact Hsafe|].
  split.
  { intros t E. destruct core as [|a core']; [discriminate|].
    injection E as E _.
    apply (Hedge a); [left; reflexivity| |exact E].
    apply (Hfirst a core' eq_refl). }
  split.
  { intros t E. destruct (rev core) as [|b rc] eqn:Er.
    - apply (f_equal (@rev ascii)) in Er. rewrite rev_involutive in Er.
      rewrite Er in E. destruct t; discriminate.
    - assert (Ec : core = rev rc ++ [b]).
      { rewrite <- (rev_involutive core), Er. reflexivity. }
      rewrite Ec in E. unfold lower in E. rewrite map_app in E. cbn [map] in E.
      apply app_inj_tail in E as [_ E].
      apply (Hedge b);
        [rewrite Ec; apply in_or_app; right; left; reflexivity| |exact E].
      apply (Hlast (rev rc) b Ec). }
  intros Hc.
  apply Forall_app; split; [exact Hsafe|].
  apply Forall_app; split; [repeat constructor|].
  apply Forall_app; split; [|repeat constructor].
  eapply Forall_impl; [|exact Hc]. intros ch H.
  assert (G : negb (ascii_alnum ch) || negb (markup_char ch) = true).
  { clear. revert ch. by_chars. }
  rewrite H in G. cbn [negb orb] in G.
  destruct (markup_char ch); [discriminate|reflexivity].
Qed.

Lemma download_name_is_attribute_safe_witness :
  Forall (fun ch => Obs.markup_char ch = false)
    (App.download_name Sample.zero_code
       (Sample.row "AAAAAAAAAA" Sample.markup_product "<svg/>")).
Proof.
  apply (download_name_is_attribute_safe Sample.zero_code
           (Sample.row "AAAAAAAAAA" Sample.markup_product "<svg/>")).
  repeat constructor.
Defined.

End RetrievalMore.

(** ** Headers and stored state of the answers to a submission *)

Section Answers.
Import Py Obs App Service.

Lemma cors_granted_allowed (cfg : Config) (req : Request) :
  cors_granted cfg req -> origin_allowed cfg req = true.
Proof.
  unfold origin_allowed. intros [H|[H _]].
  - rewrite H. reflexivity.
  - rewrite H. cbn [origin_is]. rewrite str_eqb_refl. apply orb_true_r.
Qed.

Lemma cors_ok_blank_origin (cfg : Config) (req : Request) (r : Response) :
  ALLOWED_ORIGIN cfg = [] -> origin req = Some [] ->
  cors_ok cfg req r = r.
Proof. intros Ha Ho. unfold cors_ok. rewrite Ha, Ho. reflexivity. Qed.

(** X13.  The answers the handler itself builds for a POST.  When
    [ALLOWED_ORIGIN] is the wild card, or is not empty and the request
    names it, the 200 with the code, the 400 and the handler's own JSON
    413 each carry the three headers of [cors_ok]:
    [Access-Control-Allow-Origin] echoing the request's origin ([*] when
    it has none), [Vary: Origin] and
    [Access-Control-Allow-Credentials: true].  The 403 of the origin
    check carries no header at all.  When [ALLOWED_ORIGIN] is the empty
    string and the request's [Origin] is empty too, the request passes
    the origin check and its answer, the 200 included, carries no
    header.  A JSON body over [MAX_CONTENT_LENGTH] gets no answer built
    by the handler: it ends in [RequestEntityTooLarge] before any call
    of [cors_ok], so the 413 that answers such a request is not among
    the answers that carry the headers. *)
Theorem answers_carry_cors_headers (cfg : App.Config) (req : App.Request)
    (w : App.World) :
  App.method req = App.POST ->
  (forall r w', App.save_design cfg req w = (Py.Ok r, w') ->
     (App.ALLOWED_ORIGIN cfg = Py.lit "*"
      \/ (App.origin req = Some (App.ALLOWED_ORIGIN cfg)
          /\ App.ALLOWED_ORIGIN cfg <> []) ->
        App.header Service.ACAO (App.headers r)
        = Some (Service.echoed_origin (App.origin req))
        /\ App.header Service.VARY (App.headers r) = Some (Py.lit "Origin")
        /\ App.header Service.ACAC (App.headers r) = Some (Py.lit "true"))
     /\ (App.origin_allowed cfg req = false ->
         App.status r = 403%N /\ App.headers r = [])
     /\ (App.ALLOWED_ORIGIN cfg = [] -> App.origin req = Some [] ->
         App.status r <> 403%N /\ App.headers r = []))
  /\ (App.origin_allowed cfg req = true -> App.is_json req = true ->
      (App.MAX_CONTENT_LENGTH < App.content_length req)%N ->
      App.save_design cfg req w = (Py.Raise Py.RequestEntityTooLarge, w)).
Proof.
  intros Hm. split.
  2: { intros Ho Hct Hover.
       apply save_design_unread; [congruence|exact Ho|].
       apply get_json_over; assumption. }
  intros r w' Hs. pose proof (save_design_paths cfg req w) as P.
  rewrite Hs in P. split; [|split].
  - intros G. pose proof (cors_granted_allowed cfg req G) as Ha.
    inversion P; subst; try congruence;
      try (cbn [headers with_status]; apply cors_ok_granted_headers, G).
    match goal with
    | H : store_design _ _ _ _ _ _ = _ |- _ =>
        rewrite store_design_run in H; cbv zeta in H;
        destruct sv; try discriminate;
        destruct (taken w _); [discriminate|]; injection H as <- _
    end.
    apply cors_ok_granted_headers, G.
  - intros Ho. inversion P; subst; try congruence.
    split; reflexivity.
  - intros Ha Ho.
    assert (Hal : origin_allowed cfg req = true).
    { unfold origin_allowed. rewrite Ha, Ho. reflexivity. }
    inversion P; subst; try congruence;
      try (cbn [headers status with_status];
           rewrite (cors_ok_blank_origin cfg req _ Ha Ho);
           split; [discriminate|reflexivity]).
    match goal with
    | H : store_design _ _ _ _ _ _ = _ |- _ =>
        rewrite store_design_run in H; cbv zeta in H;
        destruct sv; try discriminate;
        destruct (taken w _); [discriminate|]; injection H as <- _
    end.
    rewrite (cors_ok_blank_origin cfg req _ Ha Ho).
    split; [discriminate|reflexivity].
Qed.

Lemma answers_carry_cors_headers_witness :
  (exists r,
     App.save_design Sample.strict_config Sample.over_limit_from_example
       Sample.empty_world = (Py.Ok r, Sample.empty_world)
     /\ App.status r = 413%N
     /\ App.header Service.ACAO (App.headers r)
        = Some (Py.lit "https://example.com"))
  /\ App.headers Obs.origin_refused = []
  /\ (exists r w',
        App.save_design Sample.blank_config Sample.blank_origin_request
          Sample.empty_world = (Py.Ok r, w')
        /\ App.status r = 200%N
        /\ App.headers r = [])
  /\ App.save_design Sample.open_config Sample.quotes_request
       Sample.empty_world
     = (Py.Raise Py.RequestEntityTooLarge, Sample.empty_world).
Proof.
  split; [|split; [|split]].
  - assert (P : (Obs.least_string_size (Py.lit "Mug") <= 100)%N)
      by (vm_compute; discriminate).
    assert (H : App.save_design Sample.strict_config
                  Sample.over_limit_from_example Sample.empty_world
                = (Py.Ok (App.with_status 413
                            (App.cors_ok Sample.strict_config
                               Sample.over_limit_from_example
                               (App.jsonify [(Py.lit "error",
                                              Py.lit "SVG too large")]))),
                   Sample.empty_world)).
    { apply (save_design_too_large Sample.strict_config
               Sample.over_limit_from_example
               [(Py.lit "productId", Py.PStr (Py.lit "Mug"));
                (Py.lit "svg", Py.PStr Sample.svg_over_limit)]
               (Py.lit "Mug") Sample.svg_over_limit Sample.empty_world
               eq_refl eq_refl).
      - exact (get_json_within Sample.over_limit_from_example eq_refl
                 (over_limit_within Sample.example_origin (Py.lit "Mug") P)).
      - reflexivity.
      - reflexivity.
      - vm_compute. discriminate.
      - rewrite svg_over_limit_len. reflexivity. }
    eexists. split; [exact H|]. split; [reflexivity|].
    apply (proj1 (proj1 (answers_carry_cors_headers Sample.strict_config
                           Sample.over_limit_from_example
                           Sample.empty_world eq_refl)
                    _ Sample.empty_world H)).
    right. split; [reflexivity|vm_compute; discriminate].
  - assert (H : App.save_design Sample.strict_config
                  (Sample.post Sample.evil_origin
                     (Sample.submission "Mug" (Py.PStr (Py.lit "<svg/>"))))
                  Sample.empty_world
                = (Py.Ok Obs.origin_refused, Sample.empty_world))
      by (vm_compute; reflexivity).
    apply (proj1 (proj2 (proj1 (answers_carry_cors_headers Sample.strict_config
                    (Sample.post Sample.evil_origin
                       (Sample.submission "Mug" (Py.PStr (Py.lit "<svg/>"))))
                    Sample.empty_world eq_refl)
                    Obs.origin_refused Sample.empty_world H))).
    reflexivity.
  - eexists. eexists. split; [vm_compute; reflexivity|].
    split; [reflexivity|].
    apply (proj2 (proj2 (proj1 (answers_carry_cors_headers Sample.blank_config
                    Sample.blank_origin_request Sample.empty_world eq_refl)
                    _ _ ltac:(vm_compute; reflexivity)))
                 eq_refl eq_refl).
  - apply (proj2 (answers_carry_cors_headers Sample.open_config
                    Sample.quotes_request Sample.empty_world eq_refl)
                 eq_refl eq_refl).
    exact (quotes_over_cap None (Py.lit "Mug")).
Defined.

Lemma state_json_expr_cases (v : value) :
  state_json_expr v =
  match v with
  | PStr s => Some (Verbatim s)
  | PNone => None
  | _ => Some (StrOf v)
  end.
Proof.
  unfold state_json_expr. destruct v as [| | | |s| |]; try reflexivity.
  cbn [text_truthy str_builtin]. destruct (nonempty s); reflexivity.
Qed.

(** X14.  The row of a 200 answer keeps the [state] of the body as the
    expression [(state if isinstance(state, str) else None) or (None if
    state is None else str(state))] gives it: a string as it is, the
    empty string included; nothing ([NULL]) when [state] is absent or
    [null]; and [str(state)] for any other value, [false], [0] and empty
    lists among them. *)
Theorem stored_state (cfg : App.Config) (req : App.Request)
    (w w' : App.World) (r : App.Response) :
  App.save_design cfg req w = (Py.Ok r, w') ->
  App.status r = 200%N ->
  exists d row,
    App.get_json req = Py.PDict d
    /\ App.designs w' = App.designs w ++ [row]
    /\ App.state_json row
       = Service.state_json_expr (Service.lookup d (Py.lit "state"))
    /\ (forall s, Service.lookup d (Py.lit "state") = Py.PStr s ->
                  App.state_json row = Some (App.Verbatim s))
    /\ (Service.lookup d (Py.lit "state") = Py.PNone ->
        App.state_json row = None)
    /\ (Py.truthy (Service.lookup d (Py.lit "state")) = false ->
        (forall s, Service.lookup d (Py.lit "state") <> Py.PStr s) ->
        Service.lookup d (Py.lit "state") <> Py.PNone ->
        App.state_json row
        = Some (App.StrOf (Service.lookup d (Py.lit "state")))).
Proof.
  intros Hs H200.
  destruct (save_design_stored cfg req w w' r Hs H200)
    as (d & p & text & Hg & _ & _ & _ & _ & _ & _ & _ & ->).
  exists d. eexists. split; [exact Hg|]. split; [reflexivity|].
  cbn [state_json new_row].
  split; [|split; [|split]].
  - rewrite state_json_expr_cases.
    destruct (lookup d (lit "state")); reflexivity.
  - intros s ->. reflexivity.
  - intros ->. reflexivity.
  - intros _ Hn Hnone.
    destruct (lookup d (lit "state")); try reflexivity.
    + contradiction.
    + exfalso. eapply Hn. reflexivity.
Qed.

Lemma stored_state_witness :
  exists d row,
    App.get_json Sample.stateful_request = Py.PDict d
    /\ App.designs (snd (App.save_design Sample.open_config
                           Sample.stateful_request Sample.empty_world))
       = App.designs Sample.empty_world ++ [row]
    /\ App.state_json row = Some (App.Verbatim []).
Proof.
  assert (H : App.save_design Sample.open_config Sample.stateful_request
                Sample.empty_world
              = (Py.Ok (App.cors_ok Sample.open_config Sample.stateful_request
                          (App.jsonify [(Py.lit "code", Sample.zero_code)])),
                 snd (App.save_design Sample.open_config Sample.stateful_request
                        Sample.empty_world)))
    by (vm_compute; reflexivity).
  destruct (stored_state Sample.open_config Sample.stateful_request
              Sample.empty_world _ _ H eq_refl)
    as (d & row & H1 & H2 & _ & H4 & _).
  exists d, row. split; [exact H1|]. split; [exact H2|].
  apply H4. injection H1 as <-. reflexivity.
Defined.

End Answers.

(** ** Start-up *)

Section Startup.
Import Py Obs App Service.

Lemma environ_get_nonempty (env : environ) (key : str) :
  environ_get env key [] <> [] <-> exists v, env key = Some v /\ v <> [].
Proof.
  unfold environ_get. destruct (env key) as [v|]; split.
  - intros H. eauto.
  - intros (v' & E & H). injection E as ->. exact H.
  - intros H. contradiction.
  - intros (v' & E & _). discriminate.
Qed.

(** X15.  The service started from an environment asks for credentials
    exactly when [ADMIN_USER] and [ADMIN_PASS] are both set to values
    that are not empty: with either one unset or empty every retrieval
    goes through without credentials.  With [ALLOWED_ORIGIN] unset the
    allowed origin is the wild card and no POST is refused for its
    origin. *)
Theorem service_defaults_are_open (env : Service.environ) (req : App.Request)
    (c : Py.str) (w : App.World) :
  (App.authorization req = None ->
     (App.view_design (Service.load_config env) req c w = (Py.Ok App.challenge, w)
      <-> (exists u, env (Py.lit "ADMIN_USER") = Some u /\ u <> [])
          /\ (exists p, env (Py.lit "ADMIN_PASS") = Some p /\ p <> [])))
  /\ (env (Py.lit "ALLOWED_ORIGIN") = None ->
      App.origin_allowed (Service.load_config env) req = true
      /\ forall r w', App.save_design (Service.load_config env) req w = (Py.Ok r, w') ->
                      App.status r <> 403%N).
Proof.
  split.
  - intros Ha. rewrite <- !environ_get_nonempty.
    change (environ_get env (lit "ADMIN_USER") [])
      with (ADMIN_USER (load_config env)).
    change (environ_get env (lit "ADMIN_PASS") [])
      with (ADMIN_PASS (load_config env)).
    set (cfg := load_config env). split.
    + intros H. unfold view_design in H.
      destruct (nonempty (ADMIN_USER cfg)) eqn:U;
        destruct (nonempty (ADMIN_PASS cfg)) eqn:P; cbn [andb] in H;
        try (apply render_design_status in H as [_ [H|H]]; discriminate).
      split; apply nonempty_true; assumption.
    + intros [U P]. apply view_design_closed; try assumption.
      rewrite Ha. discriminate.
  - intros He.
    assert (Ho : origin_allowed (load_config env) req = true).
    { unfold origin_allowed, load_config, environ_get. cbn [ALLOWED_ORIGIN].
      rewrite He. reflexivity. }
    split; [exact Ho|]. intros r w' Hs.
    pose proof (save_design_paths (load_config env) req w) as P.
    rewrite Hs in P.
    inversion P; subst; try congruence;
      try (cbn [status with_status]; discriminate).
    match goal with
    | H : store_design _ _ _ _ _ _ = _ |- _ =>
        apply store_design_status in H as [-> _]
    end. discriminate.
Qed.

Lemma service_defaults_are_open_witness :
  App.view_design (Service.load_config (fun _ => None)) (Sample.browse None)
    Sample.zero_code Sample.empty_world
  <> (Py.Ok App.challenge, Sample.empty_world)
  /\ App.origin_allowed (Service.load_config (fun _ => None))
       (Sample.post Sample.evil_origin Py.PNone) = true.
Proof.
  split.
  - intros H.
    apply (proj1 (service_defaults_are_open (fun _ => None) (Sample.browse None)
                    Sample.zero_code Sample.empty_world) eq_refl) in H.
    destruct H as [(u & E & _) _]. discriminate.
  - apply (proj2 (service_defaults_are_open (fun _ => None)
                    (Sample.post Sample.evil_origin Py.PNone)
                    Sample.zero_code Sample.empty_world) eq_refl).
Defined.

End Startup.
